(** * Archipel virtual-machine storage plugin (storage.py)

    A shallow embedding of [TNStorageManagement]: the six IQ handlers, the
    dispatcher [process_iq], and the Python string primitives they are written
    with.  The filesystem, the entity (presence, definition document) and the
    trace of observable effects are threaded explicitly; subprocesses and the
    hypervisor are taken as a [Host] of oracles. *)

From Stdlib Require Import ZArith Ascii String List Bool Lia.
From stdpp Require Import base option gmap strings list pretty.

Set Warnings "-register-all".

Local Open Scope string_scope.
Local Open Scope Z_scope.

(** ** Python [str] primitives *)

Module PyStr.

(** [s.startswith(p)] *)
Fixpoint startswith (p s : string) : bool :=
  match p, s with
  | EmptyString, _ => true
  | String _ _, EmptyString => false
  | String a p', String b s' => Ascii.eqb a b && startswith p' s'
  end.

(** [sub in s], that is [s.find(sub) > -1] *)
Fixpoint contains (sub s : string) : bool :=
  startswith sub s ||
  match s with
  | EmptyString => false
  | String _ s' => contains sub s'
  end.

(** [s.find(sub)]: index of the first occurrence, [-1] when there is none *)
Fixpoint find (sub s : string) : Z :=
  if startswith sub s then 0
  else match s with
       | EmptyString => -1
       | String _ s' => let r := find sub s' in if r <? 0 then -1 else r + 1
       end.

(** Scan of [s.replace(old, new)] for a non-empty [old]: [skip] counts the
    characters of a matched occurrence still to be dropped. *)
Fixpoint replace_scan (old new s : string) (skip : nat) : string :=
  match s with
  | EmptyString => EmptyString
  | String c s' =>
      match skip with
      | S k => replace_scan old new s' k
      | O => if startswith old s
             then new +:+ replace_scan old new s' (Nat.pred (String.length old))
             else String c (replace_scan old new s' O)
      end
  end.

(** [new] put before every character and at the end: what CPython does for
    an empty [old]. *)
Fixpoint interleave (new s : string) : string :=
  match s with
  | EmptyString => new
  | String c s' => new +:+ String c (interleave new s')
  end.

(** [s.replace(old, new)]: every non-overlapping occurrence, left to right *)
Definition replace (old new s : string) : string :=
  match old with
  | EmptyString => interleave new s
  | String _ _ => replace_scan old new s O
  end.

(** Scan of [s.split(sep)] for a non-empty [sep]: the piece being read and
    the pieces after it. *)
Fixpoint split_scan (sep s : string) (skip : nat) : string * list string :=
  match s with
  | EmptyString => (EmptyString, [])
  | String c s' =>
      match skip with
      | S k => split_scan sep s' k
      | O => if startswith sep s
             then let '(t, ts) := split_scan sep s' (Nat.pred (String.length sep)) in
                  (EmptyString, t :: ts)
             else let '(t, ts) := split_scan sep s' O in
                  (String c t, ts)
      end
  end.

(** [s.split(sep)] for the non-empty literal separators of the source *)
Definition split (sep s : string) : list string :=
  let '(t, ts) := split_scan sep s O in t :: ts.

(** [l[-1]] on the result of a split (never empty) *)
Definition last_item (l : list string) : string := List.last l EmptyString.

(** [l[i]]: [None] stands for IndexError *)
Definition item (l : list string) (i : nat) : option string := l !! i.

Definition is_space (c : ascii) : bool :=
  let n := nat_of_ascii c in
  (Nat.eqb n 32 || (Nat.leb 9 n && Nat.leb n 13))%bool.

(** Scan of [s.split()]: [cur] is the word being read, [None] between words *)
Fixpoint words_scan (s : string) (cur : option string) : list string :=
  match s with
  | EmptyString => match cur with Some w => [w] | None => [] end
  | String c s' =>
      if is_space c
      then match cur with
           | Some w => w :: words_scan s' None
           | None => words_scan s' None
           end
      else words_scan s' (Some (match cur with Some w => w | None => EmptyString end
                                +:+ String c EmptyString))
  end.

(** [s.split()]: runs of whitespace separate, no empty word *)
Definition words (s : string) : list string := words_scan s None.

Definition lower_char (c : ascii) : ascii :=
  let n := nat_of_ascii c in
  if (Nat.leb 65 n && Nat.leb n 90)%bool then ascii_of_nat (n + 32) else c.

(** [s.lower()] *)
Fixpoint lower (s : string) : string :=
  match s with
  | EmptyString => EmptyString
  | String c s' => String (lower_char c) (lower s')
  end.

Definition is_digit (c : ascii) : bool :=
  let n := nat_of_ascii c in (Nat.leb 48 n && Nat.leb n 57)%bool.

Fixpoint digits (s : string) (acc : Z) : option Z :=
  match s with
  | EmptyString => Some acc
  | String c s' =>
      if is_digit c
      then digits s' (10 * acc + Z.of_nat (nat_of_ascii c) - 48)
      else None
  end.

Fixpoint lstrip (s : string) : string :=
  match s with
  | EmptyString => EmptyString
  | String c s' => if is_space c then lstrip s' else s
  end.

Fixpoint rstrip (s : string) : string :=
  match s with
  | EmptyString => EmptyString
  | String c s' =>
      match rstrip s' with
      | EmptyString => if is_space c then EmptyString else String c EmptyString
      | r => String c r
      end
  end.

(** [int(s)]: surrounding whitespace, an optional sign, decimal digits;
    [None] stands for ValueError *)
Definition int (s : string) : option Z :=
  match rstrip (lstrip s) with
  | EmptyString => None
  | String "-"%char (String c d) => Z.opp <$> digits (String c d) 0
  | String "+"%char (String c d) => digits (String c d) 0
  | String "-"%char EmptyString | String "+"%char EmptyString => None
  | d => digits d 0
  end.

(** [os.path.join(a, b)] of posixpath *)
Definition path_join (a b : string) : string :=
  if startswith "/" b then b
  else if (String.eqb a EmptyString || String.eqb (String.substring (Nat.pred (String.length a)) 1 a) "/")%bool
       then a +:+ b
       else a +:+ "/" +:+ b.

End PyStr.

(** ** simplexml nodes

    Requests, replies and the definition document are [xmpp.Node] trees: a
    tag name, a dictionary of attributes, the children in document order.
    The methods are those of xmpppy's simplexml, which the plugin calls:
    [getTag] answers the first child of that name or None, [getTags] the
    children of that name whose attributes hold every pair of the filter,
    [setAttr] writes the dictionary in place, [delChild] removes that very
    child.  A node is an object, changed in place and compared by identity;
    here the identity of a child is its position among its siblings. *)

Module Xml.

Inductive Node : Type :=
  mkNode (name : string) (attrs : gmap string string) (kids : list Node).

Definition getName (n : Node) : string := let 'mkNode x _ _ := n in x.
Definition getAttrs (n : Node) : gmap string string := let 'mkNode _ a _ := n in a.
Definition getChildren (n : Node) : list Node := let 'mkNode _ _ k := n in k.

Definition getAttr (n : Node) (key : string) : option string := getAttrs n !! key.

Definition setAttr (n : Node) (key val : string) : Node :=
  mkNode (getName n) (<[key := val]> (getAttrs n)) (getChildren n).

Definition is_tag (tag : string) (n : Node) : bool := String.eqb (getName n) tag.

(** [attrs[key] == val] for every pair of the filter *)
Definition has_attrs (flt : list (string * string)) (n : Node) : bool :=
  forallb (fun kv => bool_decide (getAttr n kv.1 = Some kv.2)) flt.

(** Position of the first child named [tag]: the object [getTag] returns. *)
Fixpoint first_tag (tag : string) (ks : list Node) : option nat :=
  match ks with
  | [] => None
  | k :: ks' => if is_tag tag k then Some O else S <$> first_tag tag ks'
  end.

Definition getTag_ref (n : Node) (tag : string) : option nat :=
  first_tag tag (getChildren n).

Definition getTag (n : Node) (tag : string) : option Node :=
  i ← getTag_ref n tag; getChildren n !! i.

(** The children as objects: each with its position as identity. *)
Fixpoint objects_from (i : nat) (ks : list Node) : list (nat * Node) :=
  match ks with
  | [] => []
  | k :: ks' => (i, k) :: objects_from (S i) ks'
  end.

Definition objects (ks : list Node) : list (nat * Node) := objects_from O ks.

(** [getTags(tag, attrs=flt)]: the matching children, in order *)
Definition getTags (n : Node) (tag : string) (flt : list (string * string))
  : list (nat * Node) :=
  List.filter (fun o => is_tag tag o.2 && has_attrs flt o.2) (objects (getChildren n)).

(** [n.kids[i] = k] *)
Definition set_kid (n : Node) (i : nat) (k : Node) : Node :=
  mkNode (getName n) (getAttrs n) (<[i := k]> (getChildren n)).

Definition set_kids (n : Node) (ks : list Node) : Node :=
  mkNode (getName n) (getAttrs n) ks.

(** [n.getTag(tag).setAttr(key, val)], the child changed in place *)
Definition setTagAttr (n : Node) (tag key val : string) : Node :=
  match getTag_ref n tag with
  | Some i =>
      match getChildren n !! i with
      | Some k => set_kid n i (setAttr k key val)
      | None => n
      end
  | None => n
  end.

(** [kids.remove(node)] for the child object of identity [i] *)
Definition delChild (live : list (nat * Node)) (i : nat) : list (nat * Node) :=
  List.filter (fun o => negb (Nat.eqb o.1 i)) live.

End Xml.

Import Xml.

(** ** The agent: entity, filesystem, observable effects *)

Definition ARCHIPEL_ERROR_CODE_DRIVES_CREATE  : Z := -3001.
Definition ARCHIPEL_ERROR_CODE_DRIVES_DELETE  : Z := -3002.
Definition ARCHIPEL_ERROR_CODE_DRIVES_GET     : Z := -3003.
Definition ARCHIPEL_ERROR_CODE_DRIVES_GETISO  : Z := -3004.
Definition ARCHIPEL_ERROR_CODE_DRIVES_CONVERT : Z := -3005.
Definition ARCHIPEL_ERROR_CODE_DRIVES_RENAME  : Z := -3006.

Inductive exn : Type :=
  | AttributeError            (* a method called on None *)
  | TypeError                 (* None where a string is needed *)
  | ValueError                (* int() of a non-number *)
  | IndexError
  | OSError                   (* unlink, rename, getsize, exec *)
  | ConfigError               (* configuration.getboolean *)
  | LibvirtError              (* the hypervisor refused the document *)
  | NodeProcessed             (* xmpp.protocol.NodeProcessed *)
  | Exception (args : list string).

Inductive Reply : Type :=
  | Result (payload : list Node)          (* iq.buildReply("result") *)
  | Error (ex : exn) (code : Z).          (* build_error_iq(self, ex, iq, code) *)

Inductive Event : Type :=
  | Presence (show status : option string)   (* presence broadcast *)
  | LogInfo (msg : string)
  | Shout (subject message : string)
  | PushChange (ns change : string)
  | Call (argv : list string)                (* subprocess.call *)
  | Popen (argv : list string)               (* subprocess.Popen(...).communicate() *)
  | Define (doc : Node)                      (* document handed to the hypervisor *)
  | Send (reply : Reply).                    (* conn.send *)

Record World : Type := mkWorld {
  folder : string;                    (* entity.folder *)
  xmppstatus : option string;         (* entity.xmppstatus *)
  xmppstatusshow : option string;     (* entity.xmppstatusshow *)
  is_migrating : bool;                (* entity.is_migrating *)
  definition : option Node;           (* entity.definition *)
  files : gset string;                (* the paths that exist; directories are not told apart *)
  trace : list Event;                 (* what the agent did, oldest first *)
}.

(** The plugin's own fields, set by [__init__] from the configuration. *)
Record Plugin : Type := mkPlugin {
  shared_isos_folder : string;                 (* iso_base_path + "/" *)
  qemu_img_bin : string;
  use_metadata_preallocation : option bool;    (* None: getboolean raises *)
}.

(** What lies outside the agent: subprocesses, file sizes, the hypervisor. *)
Record Host : Type := mkHost {
  subprocess_call : list string -> gset string -> option (Z * gset string);
  popen_stdout : list string -> gset string -> option string;
  getsize : string -> option Z;
  defineXML : Node -> bool;
}.

(** ** State and exceptions *)

Inductive outcome (A : Type) : Type :=
  | Ok (a : A)
  | Raise (e : exn).
Arguments Ok {A} a.
Arguments Raise {A} e.

Definition M (A : Type) : Type := World -> World * outcome A.

Definition pure {A} (a : A) : M A := fun w => (w, Ok a).

Definition bind {A B} (m : M A) (f : A -> M B) : M B := fun w =>
  match m w with
  | (w', Ok a) => f a w'
  | (w', Raise e) => (w', Raise e)
  end.

Declare Scope py_scope.
Delimit Scope py_scope with py.
Notation "x ← y ; z" := (bind y (fun x => z))
  (at level 20, y at level 100, z at level 200, only parsing) : py_scope.
Notation "x ;; z" := (bind x (fun _ => z))
  (at level 100, z at level 200, only parsing, right associativity) : py_scope.
Local Open Scope py_scope.

Definition raise {A} (e : exn) : M A := fun w => (w, Raise e).
Definition gets {A} (f : World -> A) : M A := fun w => (w, Ok (f w)).
Definition modify (f : World -> World) : M unit := fun w => (f w, Ok tt).

(** [try: body except Exception as ex: handler]: the handler runs in the
    world the exception left behind. *)
Definition try_except {A} (body : M A) (handler : exn -> M A) : M A := fun w =>
  match body w with
  | (w', Ok a) => (w', Ok a)
  | (w', Raise e) => handler e w'
  end.

(** A method call or attribute access on a value that may be None. *)
Definition deref {A} (o : option A) : M A :=
  match o with Some a => pure a | None => raise AttributeError end.

(** A value that must be a string where it is concatenated or parsed. *)
Definition must {A} (e : exn) (o : option A) : M A :=
  match o with Some a => pure a | None => raise e end.

Definition when (b : bool) (m : M unit) : M unit := if b then m else pure tt.

Definition emit (e : Event) : M unit :=
  modify (fun w => mkWorld (folder w) (xmppstatus w) (xmppstatusshow w) (is_migrating w)
                           (definition w) (files w) (trace w ++ [e])).

Definition set_files (fs : gset string) : M unit :=
  modify (fun w => mkWorld (folder w) (xmppstatus w) (xmppstatusshow w) (is_migrating w)
                           (definition w) fs (trace w)).

Definition with_definition (d : option Node) (w : World) : World :=
  mkWorld (folder w) (xmppstatus w) (xmppstatusshow w) (is_migrating w) d (files w) (trace w).

Definition set_definition (d : option Node) : M unit := modify (with_definition d).

(** ["%s" % x] *)
Definition pystr (o : option string) : string :=
  match o with Some s => s | None => "None" end.

(** ** The handlers of [TNStorageManagement] *)

Section Handlers.

Variable self : Plugin.
Variable host : Host.
(** Imported from archipel.archipelVirtualMachine; its value is the
    entity's, not this plugin's. *)
Variable ARCHIPEL_ERROR_CODE_VM_MIGRATING : Z.

(** Modelled from the spec: [entity.change_presence] is the entity's; it
    stores the pair as the agent's PresenceState and broadcasts it. *)
Definition change_presence (presence_show presence_status : option string) : M unit :=
  modify (fun w => mkWorld (folder w) presence_status presence_show (is_migrating w)
                           (definition w) (files w) (trace w));;
  emit (Presence presence_show presence_status).

Definition log_info (msg : string) : M unit := emit (LogInfo msg).
Definition shout (subject message : string) : M unit := emit (Shout subject message).
Definition push_change (ns change : string) : M unit := emit (PushChange ns change).

(** [os.path.exists(path)] *)
Definition path_exists (path : string) : M bool :=
  gets (fun w => bool_decide (path ∈ files w)).

(** [os.unlink(path)] *)
Definition unlink (path : string) : M unit :=
  e ← path_exists path;
  if e then fs ← gets files; set_files (fs ∖ {[path]}) else raise OSError.

(** [os.rename(src, dst)] *)
Definition rename (src dst : string) : M unit :=
  e ← path_exists src;
  if e then fs ← gets files; set_files ({[dst]} ∪ (fs ∖ {[src]})) else raise OSError.

(** [subprocess.call(argv)]: the exit status; OSError when nothing could be run *)
Definition call (argv : list string) : M Z :=
  emit (Call argv);;
  fs ← gets files;
  match subprocess_call host argv fs with
  | Some (ret, fs') => set_files fs';; pure ret
  | None => raise OSError
  end.

(** [subprocess.Popen(argv, stdout=PIPE).communicate()[0]] *)
Definition popen (argv : list string) : M string :=
  emit (Popen argv);;
  fs ← gets files;
  must OSError (popen_stdout host argv fs).

(** [libvirt_connection.defineXML(str(definition))] *)
Definition libvirt_defineXML : M unit :=
  d ← gets definition;
  doc ← deref d;
  if defineXML host doc then emit (Define doc) else raise LibvirtError.

(** Modelled from the spec: [entity.define] is the entity's; it commits the
    whole document to the hypervisor, or raises. *)
Definition define : M unit := libvirt_defineXML.

(** [query_node.getTag("archipel").getAttr(key)] *)
Definition archipel_attr (query_node : option Node) (key : string) : M (option string) :=
  q ← deref query_node;
  a ← deref (getTag q "archipel");
  pure (getAttr a key).

(** [int(x)] on an attribute *)
Definition int_of (x : option string) : M Z :=
  s ← must TypeError x;
  must ValueError (PyStr.int s).

(** [name.replace(" ", "_").replace("/", "_").replace("..", "_")] *)
Definition sanitize (name : string) : string :=
  PyStr.replace ".." "_" (PyStr.replace "/" "_" (PyStr.replace " " "_" name)).

Definition build_error_iq (ex : exn) (code : Z) : M Reply := pure (Error ex code).

(** [self.entity.folder + "/" + disk_name + "." + format] *)
Definition create_disk_path (dir disk_name format : string) : string :=
  dir +:+ "/" +:+ disk_name +:+ "." +:+ format.

Definition iq_create (iq : Node) : M Reply :=
  try_except
    (let query_node := getTag iq "query" in
     name ← archipel_attr query_node "name";
     name ← deref name;
     let disk_name := sanitize name in
     disk_size ← archipel_attr query_node "size";
     disk_unit ← archipel_attr query_node "unit";
     format ← archipel_attr query_node "format";
     prealloc ← archipel_attr query_node "preallocation";
     dir ← gets folder;
     fmt ← must TypeError format;
     let disk_path := create_disk_path dir disk_name fmt in
     mega ← (if bool_decide (disk_unit = Some "M")
             then n ← int_of disk_size; pure (1000000000 <=? n) else pure false);
     (if mega
      then raise (Exception ["too big"; "You may be able to do it manually, but I won't try"])
      else
        giga ← (if bool_decide (disk_unit = Some "G")
                then n ← int_of disk_size; pure (10000 <=? n) else pure false);
        when giga
          (raise (Exception ["too big"; "You may be able to do this manually, but I won't try"])));;
     taken ← path_exists disk_path;
     when taken (raise (Exception ["The disk with name " +:+ disk_name +:+ " already exists."]));;
     meta ← (if bool_decide (prealloc = Some "metadata") && bool_decide (fmt = "qcow2")
             then must ConfigError (use_metadata_preallocation self) else pure false);
     ret ← (if meta
            then log_info "creating a QCOW2 file with preallocated metadata";;
                 call [qemu_img_bin self; "create"; "-f"; fmt; "-o"; "preallocation=metadata";
                       disk_path; pystr disk_size +:+ pystr disk_unit]
            else call [qemu_img_bin self; "create"; "-f"; fmt;
                       disk_path; pystr disk_size +:+ pystr disk_unit]);
     when (negb (ret =? 0))
       (raise (Exception ["DriveError"; "Unable to create drive. Error code is " +:+ pretty ret]));;
     log_info "disk created";;
     shout "disk" ("I've just created a new hard drive named " +:+ disk_name +:+ " with size of "
                   +:+ pystr disk_size +:+ pystr disk_unit +:+ ".");;
     push_change "disk" "created";;
     pure (Result []))
    (fun ex => build_error_iq ex ARCHIPEL_ERROR_CODE_DRIVES_CREATE).

(** [path.replace(path.split(".")[-1], '') + format] *)
Definition convert_disk_path (path format : string) : string :=
  PyStr.replace (PyStr.last_item (PyStr.split "." path)) EmptyString path +:+ format.

(** [entity.definition.getTag("devices")]: the document, the position of its
    devices node, and that node *)
Definition devices_node : M (Node * nat * Node) :=
  d ← gets definition;
  doc ← deref d;
  dev ← deref (getTag_ref doc "devices");
  devices ← deref (getChildren doc !! dev);
  pure (doc, dev, devices).

(** The drive object [i] of the devices node written back in place. *)
Definition store_drive (i : nat) (drive : Node) : M unit :=
  t ← devices_node;
  let '(doc, dev, devices) := t in
  set_definition (Some (set_kid doc dev (set_kid devices i drive))).

(** The children of the devices node replaced by the objects still alive. *)
Definition store_kids (live : list (nat * Node)) : M unit :=
  t ← devices_node;
  let '(doc, dev, devices) := t in
  set_definition (Some (set_kid doc dev (set_kids devices (live.*2)))).

(** What the body of the loop of [iq_convert] does to a matching drive:
    driver type, when there is a driver, then source file. *)
Definition retarget_drive (format disk_path : string) (drive : Node) : Node :=
  let drive1 := match getTag drive "driver" with
                | Some _ => setTagAttr drive "driver" "type" format
                | None => drive
                end in
  match getTag drive1 "source" with
  | Some _ => setTagAttr drive1 "source" "file" disk_path
  | None => drive1
  end.

(** The [for drive in ...getTags("disk")] loop of [iq_convert], up to its
    [break]. *)
Fixpoint convert_drives (path format disk_path : string) (drives : list (nat * Node))
  : M unit :=
  match drives with
  | [] => pure tt
  | (i, drive) :: rest =>
      match getTag drive "source" with
      | Some source =>
          if bool_decide (getAttr source "file" = Some path)
          then
            store_drive i (retarget_drive format disk_path drive);;
            define
          else convert_drives path format disk_path rest
      | None => convert_drives path format disk_path rest
      end
  end.

(** [old_status] and [old_show] are the first two assignments of the [try]
    block and cannot raise, so the handler of [except] always has them. *)
Definition iq_convert (iq : Node) : M Reply :=
  old_status ← gets xmppstatus;
  old_show ← gets xmppstatusshow;
  try_except
    (let query_node := getTag iq "query" in
     path ← archipel_attr query_node "path";
     format ← archipel_attr query_node "format";
     path ← deref path;
     format ← must TypeError format;
     let disk_path := convert_disk_path path format in
     taken ← path_exists disk_path;
     when taken (raise (Exception ["The disk with same name and extension already exists."]));;
     change_presence (Some "dnd") (Some "Converting a disk...");;
     ret ← call [qemu_img_bin self; "convert"; path; "-O"; format; disk_path];
     when (negb (ret =? 0))
       (raise (Exception ["DriveError"; "Unable to convert drive. Error code is " +:+ pretty ret]));;
     unlink path;;
     t ← devices_node;
     convert_drives path format disk_path (getTags t.2 "disk" []);;
     change_presence old_show old_status;;
     log_info ("disk as been converted from " +:+ path +:+ " to " +:+ disk_path);;
     shout "disk" ("I've just converted hard drive " +:+ path +:+ " into format " +:+ format +:+ ".");;
     push_change "disk" "converted";;
     pure (Result []))
    (fun ex =>
       change_presence old_show old_status;;
       build_error_iq ex ARCHIPEL_ERROR_CODE_DRIVES_CONVERT).

(** [os.path.join(self.entity.folder, "%s.%s" % (newname, extension))] *)
Definition rename_newpath (dir newname path : string) : string :=
  let extension := PyStr.last_item (PyStr.split "." path) in
  PyStr.path_join dir (newname +:+ "." +:+ extension).

Definition iq_rename (iq : Node) : M Reply :=
  try_except
    (let query_node := getTag iq "query" in
     path ← archipel_attr query_node "path";
     newname ← archipel_attr query_node "newname";
     newname ← deref newname;
     let newname := sanitize newname in
     path ← deref path;
     dir ← gets folder;
     let newpath := rename_newpath dir newname path in
     taken ← path_exists newpath;
     when taken (raise (Exception ["The disk with name " +:+ newname +:+ " already exists."]));;
     rename path newpath;;
     log_info ("renamed hard drive " +:+ path +:+ " into  " +:+ newname);;
     shout "disk" ("I've just renamed hard drive " +:+ path +:+ " into  " +:+ newname +:+ ".");;
     push_change "disk" "renamed";;
     pure (Result []))
    (fun ex => build_error_iq ex ARCHIPEL_ERROR_CODE_DRIVES_RENAME).

(** [self.entity.folder + "/" + disk_name.split("/")[-1]] *)
Definition secure_disk_path (dir disk_name : string) : string :=
  dir +:+ "/" +:+ PyStr.last_item (PyStr.split "/" disk_name).

(** The [for disk_node in disk_nodes] loop of [iq_delete]; [live] are the
    objects still children of the devices node. *)
Fixpoint undefine_disks (path : string) (disk_nodes live : list (nat * Node))
    (have_undefined_at_least_on_disk : bool) : M bool :=
  match disk_nodes with
  | [] => pure have_undefined_at_least_on_disk
  | (i, disk_node) :: rest =>
      source ← deref (getTag disk_node "source");
      if bool_decide (getAttr source "file" = Some path)
      then
        let live' := delChild live i in
        store_kids live';;
        undefine_disks path rest live' true
      else undefine_disks path rest live have_undefined_at_least_on_disk
  end.

Definition iq_delete (iq : Node) : M Reply :=
  try_except
    (let query_node := getTag iq "query" in
     disk_name ← archipel_attr query_node "name";
     disk_name ← deref disk_name;
     dir ← gets folder;
     let secure_disk_path := secure_disk_path dir disk_name in
     old_status ← gets xmppstatus;
     old_show ← gets xmppstatusshow;
     change_presence (Some "dnd") (Some "Deleting a drive...");;
     unlink secure_disk_path;;
     d ← gets definition;
     disk_nodes ← match d with
                  | Some _ =>
                      t ← devices_node;
                      pure (objects (getChildren t.2), getTags t.2 "disk" [("type", "file")])
                  | None => pure ([], [])
                  end;
     undefine ← archipel_attr query_node "undefine";
     when (bool_decide (undefine = Some "yes"))
       (have ← undefine_disks secure_disk_path disk_nodes.2 disk_nodes.1 false;
        when have
          (libvirt_defineXML;;
           push_change "virtualmachine:definition" "defined"));;
     change_presence old_show old_status;;
     log_info ("disk " +:+ secure_disk_path +:+ " deleted");;
     push_change "disk" "deleted";;
     shout "disk" ("I've just deleted the hard drive named " +:+ disk_name +:+ ".");;
     pure (Result []))
    (fun ex => build_error_iq ex ARCHIPEL_ERROR_CODE_DRIVES_DELETE).

Definition newline : string := String (ascii_of_nat 10) EmptyString.

(** The test [iq_get] makes on the lower-cased output of [file] *)
Definition looks_like_disk (file_cmd_output : string) : bool :=
  ((0 <=? PyStr.find "format: qcow" file_cmd_output)
   || (0 <=? PyStr.find "qemu qcow image" file_cmd_output)
   || (0 <=? PyStr.find "boot sector" file_cmd_output)
   || (0 <=? PyStr.find "vmware" file_cmd_output)
   || (0 <=? PyStr.find "data" file_cmd_output)
   || (0 <=? PyStr.find "user-mode linux cow file" file_cmd_output))
  && (PyStr.find "sqlite" file_cmd_output =? -1).

(** The [for disk in disks] loop of [iq_get] *)
Fixpoint get_disks (dir : string) (disks : list string) (nodes : list Node)
  : M (list Node) :=
  match disks with
  | [] => pure nodes
  | disk :: rest =>
      out ← popen ["file"; dir +:+ "/" +:+ disk];
      let file_cmd_output := PyStr.lower out in
      if looks_like_disk file_cmd_output
      then
        let diskPath := dir +:+ "/" +:+ disk in
        diskSize ← must OSError (getsize host diskPath);
        info ← popen [qemu_img_bin self; "info"; diskPath];
        let diskInfo := PyStr.split newline info in
        name ← must IndexError (PyStr.item (PyStr.split "." disk) 0);
        line1 ← must IndexError (PyStr.item diskInfo 1);
        format ← must IndexError (PyStr.item (PyStr.split ": " line1) 1);
        line2 ← must IndexError (PyStr.item diskInfo 2);
        virtualSize ← must IndexError (PyStr.item (PyStr.split ": " line2) 1);
        let node := mkNode "disk"
                      (list_to_map [("name", name); ("path", diskPath); ("format", format);
                                    ("virtualSize", virtualSize); ("diskSize", pretty diskSize)])
                      [] in
        get_disks dir rest (nodes ++ [node])
      else get_disks dir rest nodes
  end.

Definition iq_get (iq : Node) : M Reply :=
  try_except
    (dir ← gets folder;
     out ← popen ["ls"; dir];
     let disks := PyStr.words out in
     nodes ← get_disks dir disks [];
     log_info "info about disks sent";;
     pure (Result nodes))
    (fun ex => build_error_iq ex ARCHIPEL_ERROR_CODE_DRIVES_GET).

(** A [for iso in ...] loop of [iq_getiso]: [probed] is the folder whose file
    is classified, [tagged] the folder written into the descriptor. *)
Fixpoint get_isos (probed tagged : string) (isos : list string) (nodes : list Node)
  : M (list Node) :=
  match isos with
  | [] => pure nodes
  | iso :: rest =>
      out ← popen ["file"; probed +:+ "/" +:+ iso];
      if 0 <=? PyStr.find "iso 9660" (PyStr.lower out)
      then
        let node := mkNode "iso"
                      (list_to_map [("name", iso); ("path", tagged +:+ "/" +:+ iso)]) [] in
        get_isos probed tagged rest (nodes ++ [node])
      else get_isos probed tagged rest nodes
  end.

Definition iq_getiso (iq : Node) : M Reply :=
  try_except
    (dir ← gets folder;
     out ← popen ["ls"; dir];
     let isos := PyStr.words out in
     (* line 327 classifies "%s/%s" % (self.shared_isos_folder, iso) *)
     nodes ← get_isos (shared_isos_folder self) dir isos [];
     out ← popen ["ls"; shared_isos_folder self];
     let sharedisos := PyStr.words out in
     nodes ← get_isos (shared_isos_folder self) (shared_isos_folder self) sharedisos nodes;
     log_info "info about iso sent";;
     pure (Result nodes))
    (fun ex => build_error_iq ex ARCHIPEL_ERROR_CODE_DRIVES_GETISO).

(** The [if]/[elif] chain of [process_iq]: the value of [reply], [None]
    when no branch is taken. *)
Definition dispatch (action : option string) (iq : Node) : M (option Reply) :=
  migrating ← gets is_migrating;
  if migrating
     && negb (bool_decide (action = Some "get") || bool_decide (action = Some "getiso"))
  then r ← build_error_iq
             (Exception ["virtual machine is migrating. Can't perform any drives operation"])
             ARCHIPEL_ERROR_CODE_VM_MIGRATING;
       pure (Some r)
  else if bool_decide (action = Some "create") then r ← iq_create iq; pure (Some r)
  else if bool_decide (action = Some "delete") then r ← iq_delete iq; pure (Some r)
  else if bool_decide (action = Some "get") then r ← iq_get iq; pure (Some r)
  else if bool_decide (action = Some "getiso") then r ← iq_getiso iq; pure (Some r)
  else if bool_decide (action = Some "convert") then r ← iq_convert iq; pure (Some r)
  else if bool_decide (action = Some "rename") then r ← iq_rename iq; pure (Some r)
  else pure None.

(** [process_iq] from the point where [entity.check_acp] has returned
    [action] and [entity.check_perm] has returned: both are the entity's and
    either return or leave the dispatcher by raising. *)
Definition process_iq (action : option string) (iq : Node) : M unit :=
  reply ← dispatch action iq;
  match reply with
  | Some r => emit (Send r);; raise NodeProcessed
  | None => pure tt
  end.

End Handlers.

(** ** Lexical confinement of a path below a folder *)

Module Path.

(** Walk of the segments of a path relative to a folder: [below] holds the
    names entered so far, innermost first; [None] once [..] climbs above the
    folder. *)
Fixpoint descend (segs below : list string) : option (list string) :=
  match segs with
  | [] => Some below
  | s :: rest =>
      if (String.eqb s EmptyString || String.eqb s ".")%bool then descend rest below
      else if String.eqb s ".."
           then match below with
                | [] => None
                | _ :: up => descend rest up
                end
           else descend rest (s :: below)
  end.

(** Where [folder + "/" + rel] lies relative to [folder] *)
Definition resolve_under (rel : string) : option (list string) :=
  descend (PyStr.split "/" rel) [].

(** The path leaves the folder. *)
Definition escapes (rel : string) : bool :=
  match resolve_under rel with None => true | Some _ => false end.

End Path.

(** ** Reading a request *)

(** The attribute [key] of the request's archipel node, when the request has
    a query node with an archipel node carrying it *)
Definition request_attr (iq : Node) (key : string) : option string :=
  match getTag iq "query" with
  | Some q => match getTag q "archipel" with
              | Some a => getAttr a key
              | None => None
              end
  | None => None
  end.

(** The integer a request gives for [key], as [int()] reads it *)
Definition request_int (iq : Node) (key : string) : option Z :=
  match request_attr iq key with
  | Some s => PyStr.int s
  | None => None
  end.

(** An IQ stanza carrying one archipel node with the given attributes *)
Definition archipel_iq (attrs : list (string * string)) : Node :=
  mkNode "iq" ∅ [mkNode "query" ∅ [mkNode "archipel" (list_to_map attrs) []]].

(** The actions [process_iq] understands *)
Definition known_actions : list string :=
  ["create"; "delete"; "get"; "getiso"; "convert"; "rename"].

(** ** Reading the definition document *)

(** The device entries of the definition document, in order *)
Definition device_entries (d : option Node) : list Node :=
  match d with
  | Some doc => match getTag doc "devices" with
                | Some devices => getChildren devices
                | None => []
                end
  | None => []
  end.

(** The source file of a device entry *)
Definition source_file (n : Node) : option string :=
  match getTag n "source" with
  | Some source => getAttr source "file"
  | None => None
  end.

(** A disk entry whose source file is [path] *)
Definition disk_on (path : string) (n : Node) : bool :=
  is_tag "disk" n && bool_decide (source_file n = Some path).

(** A disk entry of type "file" whose source file is [path] *)
Definition file_disk_on (path : string) (n : Node) : bool :=
  is_tag "disk" n && has_attrs [("type", "file")] n
  && bool_decide (source_file n = Some path).

(** A child object whose source file is [path] *)
Definition on_path (path : string) (o : nat * Node) : bool :=
  bool_decide (source_file o.2 = Some path).

(** The objects the loop of [iq_delete] leaves alive among [live]: those it
    did not visit in [disk_nodes] with a source file equal to [path]. *)
Definition survivors (path : string) (disk_nodes live : list (nat * Node))
  : list (nat * Node) :=
  List.filter
    (fun o => negb (existsb (fun d => Nat.eqb d.1 o.1 && on_path path d) disk_nodes)) live.

(** The first disk entry on [path], with its position *)
Definition first_disk_on (path : string) (ks : list Node) : option (nat * Node) :=
  List.find (fun o => disk_on path o.2) (objects ks).

(** What a commit of the document [d] leaves in the trace *)
Definition commit_events (d : option Node) : list Event :=
  match d with
  | Some doc => [Define doc; PushChange "virtualmachine:definition" "defined"]
  | None => []
  end.

(** The driver type of a device entry *)
Definition driver_type (n : Node) : option string :=
  match getTag n "driver" with
  | Some driver => getAttr driver "type"
  | None => None
  end.

(** The document [doc] with the children of its devices node, the child
    [dev] of [doc], replaced by [ks]; everything else as it is in [doc]. *)
Definition with_entries (doc devices : Node) (dev : nat) (ks : list Node) : Node :=
  set_kid doc dev (set_kids devices ks).

(** The spec's destination of a convert: the path without the suffix that
    follows its last dot, then the format. *)
Definition spec_convert_disk_path (path format : string) : string :=
  let extension := PyStr.last_item (PyStr.split "." path) in
  String.substring 0 (String.length path - String.length extension) path +:+ format.

(** ** A sample machine *)

Module Demo.

Definition plugin : Plugin := mkPlugin "/iso/" "qemu-img" (Some true).

(** qemu-img: [create] makes the image, [convert] makes the destination when
    the source is there. *)
Definition qemu_img (argv : list string) (fs : gset string) : option (Z * gset string) :=
  match argv with
  | [_; verb; a; _; c; d] =>
      if String.eqb verb "convert"
      then if bool_decide (a ∈ fs) then Some (0, {[d]} ∪ fs) else Some (1, fs)
      else if String.eqb verb "create" then Some (0, {[c]} ∪ fs) else Some (1, fs)
  | [_; verb; _; _; _; _; dst; _] =>
      if String.eqb verb "create" then Some (0, {[dst]} ∪ fs) else Some (1, fs)
  | _ => Some (1, fs)
  end.

(** ls and file over a private folder holding cd.iso, an ISO image, and
    notes.iso, a text file, and a shared folder holding another notes.iso,
    an ISO image. *)
Definition ls_and_file (argv : list string) (fs : gset string) : option string :=
  if bool_decide (argv = ["ls"; "/vm"]) then Some "cd.iso  notes.iso"
  else if bool_decide (argv = ["ls"; "/iso/"]) then Some "notes.iso"
  else if bool_decide (argv = ["file"; "/vm/cd.iso"])
       then Some "/vm/cd.iso: ISO 9660 CD-ROM filesystem data 'INSTALL'"
  else if bool_decide (argv = ["file"; "/vm/notes.iso"])
       then Some "/vm/notes.iso: ASCII text"
  else if bool_decide (argv = ["file"; "/iso//notes.iso"])
       then Some "/iso//notes.iso: ISO 9660 CD-ROM filesystem data 'NOTES'"
  else match argv with
       | [cmd; p] => if String.eqb cmd "file"
                     then Some (p +:+ ": cannot open (No such file or directory)")
                     else None
       | _ => None
       end.

Definition host : Host := mkHost qemu_img ls_and_file (fun _ => Some 0) (fun _ => true).

Definition disk (attrs : list (string * string)) (driver file : string) : Node :=
  mkNode "disk" (list_to_map attrs)
    [mkNode "driver" {[ "name" := "qemu"; "type" := driver ]} [];
     mkNode "source" {[ "file" := file ]} [];
     mkNode "target" {[ "bus" := "virtio" ]} []].

(** A domain with a network interface and three disks; the second disk is
    on the same image as the first and carries no type attribute, which
    libvirt reads as a file-backed disk. *)
Definition domain : Node :=
  mkNode "domain" {[ "type" := "kvm" ]}
    [mkNode "name" ∅ [];
     mkNode "devices" ∅
       [mkNode "interface" {[ "type" := "bridge" ]} [];
        disk [("type", "file"); ("device", "disk")] "qcow2" "/vm/a.qcow2";
        disk [("device", "disk")] "qcow2" "/vm/a.qcow2";
        disk [("type", "file"); ("device", "disk")] "raw" "/vm/b.img"]].

Definition world : World :=
  mkWorld "/vm" (Some "Online") None false (Some domain)
          {[ "/vm/a.qcow2"; "/vm/b.img"; "/vm/img.img" ]} [].

Definition delete_ghost : Node := archipel_iq [("name", "ghost.qcow2")].
Definition delete_a : Node := archipel_iq [("name", "a.qcow2"); ("undefine", "yes")].
Definition convert_img : Node := archipel_iq [("path", "/vm/img.img"); ("format", "qcow2")].
Definition convert_a : Node := archipel_iq [("path", "/vm/a.qcow2"); ("format", "raw")].
Definition convert_taken : Node := archipel_iq [("path", "/vm/a.raw"); ("format", "qcow2")].
Definition create_big : Node :=
  archipel_iq [("name", "big"); ("size", "1000000000"); ("unit", "M"); ("format", "qcow2")].
Definition create_taken : Node :=
  archipel_iq [("name", "a"); ("size", "1"); ("unit", "G"); ("format", "qcow2")].
Definition rename_taken : Node := archipel_iq [("path", "/vm/b.img"); ("newname", "img")].
Definition getiso : Node := archipel_iq [("action", "getiso")].
Definition reboot : Node := archipel_iq [("action", "reboot")].

End Demo.

(** ** Classifying files *)

(** The file at [path] is classified as an ISO 9660 image: the lower-cased
    output of [file] holds the signature. *)
Definition classified_iso (host : Host) (fs : gset string) (path : string) : bool :=
  match popen_stdout host ["file"; path] fs with
  | Some out => 0 <=? PyStr.find "iso 9660" (PyStr.lower out)
  | None => false
  end.

(** The descriptor of the image [iso], tagged with the folder [dir] *)
Definition iso_descriptor (dir iso : string) : Node :=
  mkNode "iso" (list_to_map [("name", iso); ("path", dir +:+ "/" +:+ iso)]) [].


(** ** Replies and routing *)

(** The reply of a handler whose error code is [code]: a result, or an error
    carrying that code. *)
Definition reply_with_code (code : Z) (r : Reply) : Prop :=
  match r with
  | Result _ => True
  | Error _ c => c = code
  end.

(** The handler [process_iq] calls for an action, as its chain pairs them *)
Definition handler_of (self : Plugin) (host : Host) (action : string)
  : option (Node -> M Reply) :=
  if String.eqb action "create" then Some (iq_create self host)
  else if String.eqb action "delete" then Some (iq_delete host)
  else if String.eqb action "get" then Some (iq_get self host)
  else if String.eqb action "getiso" then Some (iq_getiso self host)
  else if String.eqb action "convert" then Some (iq_convert self host)
  else if String.eqb action "rename" then Some iq_rename
  else None.

(** The world with one more event in its trace *)
Definition with_event (e : Event) (w : World) : World :=
  mkWorld (folder w) (xmppstatus w) (xmppstatusshow w) (is_migrating w)
          (definition w) (files w) (trace w ++ [e]).

(** Two worlds that differ at most by their traces *)
Definition same_state (w w' : World) : Prop :=
  folder w' = folder w /\ xmppstatus w' = xmppstatus w
  /\ xmppstatusshow w' = xmppstatusshow w /\ is_migrating w' = is_migrating w
  /\ definition w' = definition w /\ files w' = files w.

(** ** What a create request asks for *)

(** The size guard of [iq_create] lets the request through: the unit is
    neither "M" nor "G", or the size reads as an integer below the limit of
    its unit. *)
Definition within_limits (disk_unit disk_size : option string) : bool :=
  let below (limit : Z) :=
    match disk_size with
    | Some s => match PyStr.int s with Some n => n <? limit | None => false end
    | None => false
    end in
  if bool_decide (disk_unit = Some "M") then below 1000000000
  else if bool_decide (disk_unit = Some "G") then below 10000
  else true.

(** The request asks for preallocated metadata and the configuration allows
    it. *)
Definition preallocates (self : Plugin) (prealloc : option string) (format : string) : bool :=
  bool_decide (prealloc = Some "metadata") && bool_decide (format = "qcow2")
  && bool_decide (use_metadata_preallocation self = Some true).

(** The command line of qemu-img create *)
Definition create_argv (self : Plugin) (prealloc : option string)
    (format disk_path sizespec : string) : list string :=
  if preallocates self prealloc format
  then [qemu_img_bin self; "create"; "-f"; format; "-o"; "preallocation=metadata";
        disk_path; sizespec]
  else [qemu_img_bin self; "create"; "-f"; format; disk_path; sizespec].

(** ** Inventory *)

(** The events an inventory leaves: the subprocesses it read from and its
    log line. *)
Definition inventory_event (e : Event) : Prop :=
  match e with
  | Popen _ | LogInfo _ => True
  | _ => False
  end.

(** [w'] is [w] after reading only: the same state, and a trace longer by
    inventory events. *)
Definition reads_only (w w' : World) : Prop :=
  same_state w w'
  /\ exists tr, trace w' = (trace w ++ tr)%list /\ Forall inventory_event tr.

(** A computation that only reads, however it ends *)
Definition Reader {A} (m : M A) : Prop :=
  forall w w' r, m w = (w', r) -> reads_only w w'.

(** The entry [path] is classified as a disk image by [iq_get]. *)
Definition accepted_disk (host : Host) (fs : gset string) (path : string) : bool :=
  match popen_stdout host ["file"; path] fs with
  | Some out => looks_like_disk (PyStr.lower out)
  | None => false
  end.

(** The text after ": " on line [line] (from 0) of the output of qemu-img
    info *)
Definition info_field (info : string) (line : nat) : option string :=
  match PyStr.item (PyStr.split newline info) line with
  | Some l => PyStr.item (PyStr.split ": " l) 1
  | None => None
  end.

(** [n] is the descriptor [iq_get] builds for the entry [disk] of [dir]. *)
Definition describes (self : Plugin) (host : Host) (fs : gset string)
    (dir disk : string) (n : Node) : Prop :=
  let diskPath := dir +:+ "/" +:+ disk in
  getName n = "disk" /\ getChildren n = []
  /\ getAttr n "name" = PyStr.item (PyStr.split "." disk) 0
  /\ getAttr n "path" = Some diskPath
  /\ (exists size, getsize host diskPath = Some size
                   /\ getAttr n "diskSize" = Some (pretty size))
  /\ (exists info, popen_stdout host [qemu_img_bin self; "info"; diskPath] fs = Some info
                   /\ is_Some (info_field info 1) /\ is_Some (info_field info 2)
                   /\ getAttr n "format" = info_field info 1
                   /\ getAttr n "virtualSize" = info_field info 2).

(** ** [__init__]

    The configuration is a map from (section, option) to the text of the
    option.  The permission center is the entity's: the permissions
    [__init__] creates there (name, description, default) are returned with
    the plugin.  [use_metadata_preallocation] is read by [iq_create] from the
    entity's configuration and is taken as it will be read. *)





(** ** Further sample requests and machines *)

Module Scenario.

Definition create_new : Node :=
  archipel_iq [("name", "new disk"); ("size", "10"); ("unit", "G"); ("format", "qcow2");
               ("preallocation", "metadata")].
Definition rename_b : Node := archipel_iq [("path", "/vm/b.img"); ("newname", "c d")].
Definition rename_ghost : Node := archipel_iq [("path", "/vm/ghost.img"); ("newname", "x")].
Definition convert_ghost : Node := archipel_iq [("path", "/vm/ghost.raw"); ("format", "qcow2")].
Definition delete_b : Node := archipel_iq [("name", "b.img")].
Definition get : Node := archipel_iq [("action", "get")].

(** The sample machine while it migrates *)
Definition migrating : World :=
  mkWorld "/vm" (Some "Migrating") None true (Some Demo.domain)
          {[ "/vm/a.qcow2"; "/vm/b.img" ]} [].



(** ls, file and qemu-img info over a private folder holding a qcow2 image,
    a text file and an sqlite database *)
Definition ls_file_info (argv : list string) (fs : gset string) : option string :=
  if bool_decide (argv = ["ls"; "/vm"]) then Some "a.sys.qcow2  cache.db  notes.txt"
  else if bool_decide (argv = ["file"; "/vm/a.sys.qcow2"])
       then Some "/vm/a.sys.qcow2: QEMU QCOW Image (v2), 10737418240 bytes"
  else if bool_decide (argv = ["file"; "/vm/cache.db"])
       then Some "/vm/cache.db: SQLite 3.x database, user version 3"
  else if bool_decide (argv = ["file"; "/vm/notes.txt"])
       then Some "/vm/notes.txt: ASCII text"
  else if bool_decide (argv = ["qemu-img"; "info"; "/vm/a.sys.qcow2"])
       then Some ("image: /vm/a.sys.qcow2" +:+ newline +:+ "file format: qcow2" +:+ newline
                  +:+ "virtual size: 10G (10737418240 bytes)" +:+ newline
                  +:+ "disk size: 136K" +:+ newline)
  else None.

Definition disk_host : Host :=
  mkHost Demo.qemu_img ls_file_info (fun _ => Some 139264) (fun _ => true).




End Scenario.
(** * Properties *)

(** ** The string primitives on sample inputs *)

Example replace_ex1 : PyStr.replace ".." "_" "a...b....c" = "a_.b__c".
Proof. reflexivity. Qed.
Example split_ex1 : PyStr.split "." "/vm/a.b.qcow2" = ["/vm/a"; "b"; "qcow2"].
Proof. reflexivity. Qed.
Example split_ex2 : PyStr.split ": " "file format: qcow2" = ["file format"; "qcow2"].
Proof. reflexivity. Qed.
Example words_ex1 : PyStr.words " a.iso  b.iso
c " = ["a.iso"; "b.iso"; "c"].
Proof. reflexivity. Qed.
Example int_ex1 : PyStr.int " -12 " = Some (-12).
Proof. reflexivity. Qed.
Example int_ex2 : PyStr.int "12a" = None.
Proof. reflexivity. Qed.
Example find_ex1 : PyStr.find "iso 9660" (PyStr.lower "x: ISO 9660 CD-ROM") = 3.
Proof. reflexivity. Qed.
Example join_ex1 : PyStr.path_join "/vm" "a.raw" = "/vm/a.raw".
Proof. reflexivity. Qed.


(** ** Facts about the string primitives *)

Section StrFacts.

Import PyStr.

Lemma append_nil s : EmptyString +:+ s = s.
Proof. reflexivity. Qed.

Lemma append_cons c a b : String c a +:+ b = String c (a +:+ b).
Proof. reflexivity. Qed.

Lemma startswith_nil s : startswith EmptyString s = true.
Proof. by destruct s. Qed.

Lemma contains_char_cons c d s :
  contains (String c EmptyString) (String d s) = (Ascii.eqb c d || contains (String c EmptyString) s)%bool.
Proof. simpl. by rewrite andb_true_r. Qed.

Lemma contains_char_app c a b :
  contains (String c EmptyString) (a +:+ b)
  = (contains (String c EmptyString) a || contains (String c EmptyString) b)%bool.
Proof.
  induction a as [|d a IH].
  - simpl. by destruct b.
  - change (String d a +:+ b) with (String d (a +:+ b)).
    rewrite !contains_char_cons, IH. by rewrite orb_assoc.
Qed.

Lemma contains_char_nil c : contains (String c EmptyString) EmptyString = false.
Proof. reflexivity. Qed.

(** A replacement brings in no character that neither the input nor the
    replacement text has. *)
Lemma replace_scan_keeps_absent c old new s k :
  contains (String c EmptyString) new = false ->
  contains (String c EmptyString) s = false ->
  contains (String c EmptyString) (replace_scan old new s k) = false.
Proof.
  intros Hnew. revert k. induction s as [|d s IH]; intros k Hs; [done|].
  rewrite contains_char_cons in Hs. apply orb_false_elim in Hs as [Hd Hs].
  simpl. destruct k as [|k]; [|by apply IH].
  destruct (startswith old (String d s)).
  - rewrite contains_char_app, Hnew. by apply IH.
  - rewrite contains_char_cons, Hd. by apply IH.
Qed.

(** Replacing a one-character [old] leaves no occurrence of it. *)
Lemma replace_scan_char_gone c new s k :
  contains (String c EmptyString) new = false ->
  contains (String c EmptyString) (replace_scan (String c EmptyString) new s k) = false.
Proof.
  intros Hnew. revert k. induction s as [|d s IH]; intros k; [done|].
  simpl. destruct k as [|k]; [|by apply IH].
  rewrite andb_true_r.
  destruct (Ascii.eqb c d) eqn:Hcd.
  - rewrite contains_char_app, Hnew. by apply IH.
  - rewrite contains_char_cons, Hcd. by apply IH.
Qed.

(** What is copied after a character other than a dot does not start with
    a dot pair, and a copied dot is never followed by a dot. *)
Lemma replace_scan_dotdot_head s :
  startswith "." s = false ->
  startswith "." (replace_scan ".." "_" s 0) = false.
Proof.
  destruct s as [|d s]; [done|]. simpl.
  rewrite andb_true_r. intros Hd. by rewrite Hd; simpl; rewrite Hd.
Qed.

Lemma replace_scan_cons old new c s k :
  replace_scan old new (String c s) k
  = match k with
    | S k' => replace_scan old new s k'
    | O => if startswith old (String c s)
           then new +:+ replace_scan old new s (Nat.pred (String.length old))
           else String c (replace_scan old new s O)
    end.
Proof. reflexivity. Qed.

Lemma replace_scan_dotdot_gone s k :
  contains ".." (replace_scan ".." "_" s k) = false.
Proof.
  revert k. induction s as [|d s IH]; intros k; [done|].
  rewrite replace_scan_cons. destruct k as [|k]; [|by apply IH].
  destruct (startswith ".." (String d s)) eqn:Hp.
  - change ("_" +:+ ?x) with (String "_" x).
    change (contains ".." (String "_" ?x)) with (false || contains ".." x)%bool.
    by apply IH.
  - change (contains ".." (String d ?x))
      with (startswith ".." (String d x) || contains ".." x)%bool.
    rewrite IH, orb_false_r.
    change (startswith ".." (String d ?x)) with (Ascii.eqb "." d && startswith "." x)%bool.
    destruct (Ascii.eqb "." d) eqn:E; [|done]. simpl andb.
    apply replace_scan_dotdot_head.
    change (startswith ".." (String d s)) with (Ascii.eqb "." d && startswith "." s)%bool in Hp.
    by rewrite E in Hp.
Qed.

Lemma sanitize_no_space name : contains " " (sanitize name) = false.
Proof.
  unfold sanitize, replace.
  do 2 (apply replace_scan_keeps_absent; [done|]).
  by apply replace_scan_char_gone.
Qed.

Lemma sanitize_no_separator name : contains "/" (sanitize name) = false.
Proof.
  unfold sanitize, replace.
  apply replace_scan_keeps_absent; [done|].
  by apply replace_scan_char_gone.
Qed.

Lemma sanitize_no_dotdot name : contains ".." (sanitize name) = false.
Proof. unfold sanitize, replace. apply replace_scan_dotdot_gone. Qed.

End StrFacts.

(** ** Facts about splitting and about confinement *)

Section PathFacts.

Import PyStr.

Lemma split_scan_cons sep c s k :
  split_scan sep (String c s) k
  = match k with
    | S k' => split_scan sep s k'
    | O => if startswith sep (String c s)
           then let '(t, ts) := split_scan sep s (Nat.pred (String.length sep)) in
                (EmptyString, t :: ts)
           else let '(t, ts) := split_scan sep s O in (String c t, ts)
    end.
Proof. reflexivity. Qed.

(** A string without the separator is its only piece. *)
Lemma split_no_separator c s :
  contains (String c EmptyString) s = false -> split (String c EmptyString) s = [s].
Proof.
  unfold split. intros Hs.
  assert (split_scan (String c EmptyString) s 0 = (s, [])) as ->; [|done].
  induction s as [|d s IH]; [done|].
  rewrite contains_char_cons in Hs. apply orb_false_elim in Hs as [Hd Hs].
  rewrite split_scan_cons.
  change (startswith (String c EmptyString) (String d s)) with (Ascii.eqb c d && startswith EmptyString s)%bool.
  rewrite Hd. simpl andb. cbv iota. by rewrite IH.
Qed.

(** No piece of a split on a one-character separator holds the separator. *)
Lemma split_scan_pieces c s k t ts :
  split_scan (String c EmptyString) s k = (t, ts) ->
  Forall (fun x => contains (String c EmptyString) x = false) (t :: ts).
Proof.
  revert k t ts. induction s as [|d s IH]; intros k t ts.
  - intros [= <- <-]. by repeat constructor.
  - rewrite split_scan_cons. destruct k as [|k]; [|by apply IH].
    change (startswith (String c EmptyString) (String d s)) with (Ascii.eqb c d && startswith EmptyString s)%bool.
    rewrite startswith_nil, andb_true_r.
    destruct (Ascii.eqb c d) eqn:Hcd.
    + destruct (split_scan (String c EmptyString) s _) as [t' ts'] eqn:E.
      intros [= <- <-]. constructor; [done|]. by eapply IH.
    + destruct (split_scan (String c EmptyString) s 0) as [t' ts'] eqn:E.
      intros [= <- <-]. apply IH in E. inversion E as [|? ? Ht Hts]; subst.
      constructor; [|done]. by rewrite contains_char_cons, Hcd, Ht.
Qed.

Lemma last_item_in (t : string) (ts : list string) : In (last_item (t :: ts)) (t :: ts).
Proof.
  unfold last_item. revert t. induction ts as [|u ts IH]; intros t; [by left|].
  right. apply (IH u).
Qed.

(** The last segment of any name holds no path separator. *)
Lemma last_segment_no_separator name :
  contains "/" (last_item (split "/" name)) = false.
Proof.
  unfold split. destruct (split_scan "/" name 0) as [t ts] eqn:E.
  apply split_scan_pieces in E. rewrite List.Forall_forall in E.
  apply E, last_item_in.
Qed.

(** A leaf without separator resolves to itself, to the folder, or above it. *)
Lemma resolve_under_leaf leaf :
  contains "/" leaf = false ->
  Path.resolve_under leaf
  = if (String.eqb leaf EmptyString || String.eqb leaf ".")%bool then Some []
    else if String.eqb leaf ".." then None else Some [leaf].
Proof.
  intros H. unfold Path.resolve_under. rewrite (split_no_separator "/" leaf H). simpl.
  by repeat case_match.
Qed.


Lemma startswith_refl s : startswith s s = true.
Proof. induction s as [|c s IH]; simpl; [done|]. by rewrite Ascii.eqb_refl. Qed.

Lemma replace_scan_skip old new s : forall k,
  (String.length s <= k)%nat -> replace_scan old new s k = EmptyString.
Proof.
  induction s as [|c s IH]; intros k Hk; [done|].
  rewrite replace_scan_cons. destruct k as [|k]; simpl in Hk; [lia|]. apply IH. lia.
Qed.

Lemma interleave_nil s : interleave EmptyString s = s.
Proof. induction s as [|c s IH]; simpl; [done|]. by rewrite append_nil, IH. Qed.

Lemma append_nil_r s : s +:+ EmptyString = s.
Proof. induction s as [|c s IH]; [done|]. by rewrite append_cons, IH. Qed.

(** Removing [old] from a string that ends with it and has no occurrence of
    it starting earlier leaves what precedes it. *)
Lemma replace_scan_suffix old stem :
  old <> EmptyString ->
  (forall a b, stem = a +:+ b -> b <> EmptyString -> startswith old (b +:+ old) = false) ->
  replace_scan old EmptyString (stem +:+ old) 0 = stem.
Proof.
  intros Hold. induction stem as [|c stem IH]; intros Hocc.
  - rewrite append_nil. destruct old as [|c old]; [done|].
    rewrite replace_scan_cons, startswith_refl, append_nil.
    by apply replace_scan_skip.
  - rewrite append_cons, replace_scan_cons, <- append_cons.
    rewrite (Hocc EmptyString (String c stem)) by done. f_equal.
    apply IH. intros a b -> Hb. by apply (Hocc (String c a) b).
Qed.

(** X11: when the last dot-piece of the path does not occur in it before its last
    place, the destination of a convert is the path with that piece replaced
    by the format. *)
Lemma convert_disk_path_keeps_stem stem ext format :
  last_item (split "." (stem +:+ ext)) = ext ->
  (forall a b, stem = a +:+ b -> b <> EmptyString -> startswith ext (b +:+ ext) = false) ->
  convert_disk_path (stem +:+ ext) format = stem +:+ format.
Proof.
  intros Hext Hocc. unfold convert_disk_path. rewrite Hext. f_equal.
  destruct ext as [|c ext].
  - unfold replace. by rewrite interleave_nil, append_nil_r.
  - unfold replace. by apply replace_scan_suffix.
Qed.

Example convert_disk_path_sample : convert_disk_path "/vm/a.qcow2" "raw" = "/vm/a.raw".
Proof.
  apply (convert_disk_path_keeps_stem "/vm/a." "qcow2" "raw"); [reflexivity|].
  intros a b Hab Hb.
  repeat (destruct a as [|? a];
          [rewrite append_nil in Hab; by subst b
          |rewrite append_cons in Hab; injection Hab as <- Hab]).
  destruct a; [rewrite append_nil in Hab; by subst b | by rewrite append_cons in Hab].
Defined.

End PathFacts.

(** ** Facts about nodes and child objects *)

Section XmlFacts.

Lemma objects_from_snd i ks : (objects_from i ks).*2 = ks.
Proof. revert i. induction ks as [|k ks IH]; intros i; simpl; [done|]. by rewrite IH. Qed.

Lemma objects_from_filter (f : Node -> bool) i ks :
  (List.filter (fun o => f o.2) (objects_from i ks)).*2 = List.filter f ks.
Proof.
  revert i. induction ks as [|k ks IH]; intros i; simpl; [done|].
  destruct (f k); simpl; by rewrite IH.
Qed.

Lemma objects_from_ge i ks o : In o (objects_from i ks) -> (i <= o.1)%nat.
Proof.
  revert i. induction ks as [|k ks IH]; intros i; simpl; [done|].
  intros [<-|Ho]; [done|]. apply IH in Ho. lia.
Qed.

(** An identity names one child. *)
Lemma objects_from_unique i ks o1 o2 :
  In o1 (objects_from i ks) -> In o2 (objects_from i ks) -> o1.1 = o2.1 -> o1 = o2.
Proof.
  revert i. induction ks as [|k ks IH]; intros i; simpl; [done|].
  intros [<-|H1] [<-|H2] E; simpl in *.
  - done.
  - apply objects_from_ge in H2. lia.
  - apply objects_from_ge in H1. lia.
  - by eapply IH.
Qed.

Lemma objects_from_lookup i ks j k :
  In (j, k) (objects_from i ks) -> (i <= j)%nat /\ ks !! (j - i)%nat = Some k.
Proof.
  revert i. induction ks as [|k' ks IH]; intros i; simpl; [done|].
  intros [[= <- <-]|H].
  - by rewrite Nat.sub_diag.
  - apply IH in H as [Hle Hk]. split; [lia|].
    by replace (j - i)%nat with (S (j - S i)) by lia.
Qed.

Lemma filter_all {A} (l : list A) : List.filter (fun _ => true) l = l.
Proof. induction l as [|x l IH]; simpl; [done|]. by rewrite IH. Qed.

Lemma filter_twice {A} (f g : A -> bool) (l : list A) :
  List.filter f (List.filter g l) = List.filter (fun x => g x && f x) l.
Proof.
  induction l as [|x l IH]; simpl; [done|].
  destruct (g x); simpl; [destruct (f x)|]; by rewrite IH.
Qed.

Lemma set_kids_children n : set_kids n (getChildren n) = n.
Proof. by destruct n. Qed.

Lemma set_kids_twice n ks1 ks2 : set_kids (set_kids n ks1) ks2 = set_kids n ks2.
Proof. by destruct n. Qed.

Lemma set_kid_twice n i k1 k2 : set_kid (set_kid n i k1) i k2 = set_kid n i k2.
Proof. destruct n. unfold set_kid. simpl. by rewrite list_insert_insert_eq. Qed.

Lemma set_kid_same n i k : getChildren n !! i = Some k -> set_kid n i k = n.
Proof. destruct n. unfold set_kid. simpl. intros H. by rewrite list_insert_id. Qed.

Lemma set_kid_lookup n i k k0 :
  getChildren n !! i = Some k0 -> getChildren (set_kid n i k) !! i = Some k.
Proof.
  destruct n. simpl. intros H. apply list_lookup_insert_eq. by eapply lookup_lt_Some.
Qed.


(** Replacing a child by one of the same name moves no [getTag]. *)
Lemma first_tag_insert tag ks i k k' :
  ks !! i = Some k -> getName k' = getName k ->
  first_tag tag (<[i := k']> ks) = first_tag tag ks.
Proof.
  revert i. induction ks as [|k0 ks IH]; intros i Hi Hn; [done|].
  destruct i as [|i]; simpl in *.
  - injection Hi as ->. unfold is_tag. by rewrite Hn.
  - destruct (is_tag tag k0); [done|]. by rewrite (IH i).
Qed.

Lemma getTag_ref_set_kid tag n i k k' :
  getChildren n !! i = Some k -> getName k' = getName k ->
  getTag_ref (set_kid n i k') tag = getTag_ref n tag.
Proof. destruct n. unfold getTag_ref. simpl. apply first_tag_insert. Qed.


Lemma setAttr_name k key v : getName (setAttr k key v) = getName k.
Proof. reflexivity. Qed.




Lemma getTag_ref_lookup n tag i k :
  getTag_ref n tag = Some i -> getChildren n !! i = Some k -> getTag n tag = Some k.
Proof. unfold getTag. intros -> H. done. Qed.

End XmlFacts.

(** ** Running the handlers *)

Section Run.

Variable self : Plugin.
Variable host : Host.

Lemma request_attr_tags iq key v :
  request_attr iq key = Some v ->
  exists q a, getTag iq "query" = Some q /\ getTag q "archipel" = Some a
              /\ getAttr a key = Some v.
Proof.
  unfold request_attr. destruct (getTag iq "query") as [q|]; [|done].
  destruct (getTag q "archipel") as [a|] eqn:Ha; [|done]. intros H. by exists q, a.
Qed.

Lemma archipel_attr_run q a key w :
  getTag q "archipel" = Some a ->
  archipel_attr (Some q) key w = (w, Ok (getAttr a key)).
Proof. intros Ha. unfold archipel_attr, bind, deref, pure. by rewrite Ha. Qed.

Lemma archipel_attr_none w key : archipel_attr None key w = (w, Raise AttributeError).
Proof. reflexivity. Qed.

Lemma archipel_attr_no_node q key w :
  getTag q "archipel" = None ->
  archipel_attr (Some q) key w = (w, Raise AttributeError).
Proof. intros Ha. unfold archipel_attr, bind, deref, pure, raise. by rewrite Ha. Qed.

Lemma bind_run {A B} (m : M A) (f : A -> M B) w w' a :
  m w = (w', Ok a) -> bind m f w = f a w'.
Proof. intros H. unfold bind. by rewrite H. Qed.

Lemma bind_raise {A B} (m : M A) (f : A -> M B) w w' e :
  m w = (w', Raise e) -> bind m f w = (w', Raise e).
Proof. intros H. unfold bind. by rewrite H. Qed.

Lemma try_run {A} (m : M A) h w w' a :
  m w = (w', Ok a) -> try_except m h w = (w', Ok a).
Proof. intros H. unfold try_except. by rewrite H. Qed.

Lemma try_raise {A} (m : M A) h w w' e :
  m w = (w', Raise e) -> try_except m h w = h e w'.
Proof. intros H. unfold try_except. by rewrite H. Qed.

Ltac run_monad :=
  cbv [try_except bind pure raise gets modify deref must when archipel_attr int_of
       build_error_iq path_exists emit set_files set_definition change_presence
       log_info shout push_change].

Ltac run_monad_in H :=
  cbv [try_except bind pure raise gets modify deref must when archipel_attr int_of
       build_error_iq path_exists emit set_files set_definition change_presence
       log_info shout push_change] in H.

(** C7: a create request with unit "M" and a size of 1,000,000,000 or more,
    or with unit "G" and a size of 10,000 or more, is answered with an error
    of code -3001, and the world is left as it was: no file is created and
    the trace gains no subprocess call. *)
Theorem iq_create_rejects_oversized iq w n :
  request_int iq "size" = Some n ->
  (request_attr iq "unit" = Some "M" /\ 1000000000 <= n)
  \/ (request_attr iq "unit" = Some "G" /\ 10000 <= n) ->
  exists ex, iq_create self host iq w = (w, Ok (Error ex (-3001))).
Proof.
  unfold request_int. intros Hn Hu.
  destruct (request_attr iq "size") as [sz|] eqn:Hsz; [|done].
  apply request_attr_tags in Hsz as (q & a & Hq & Ha & Hsz).
  assert (getAttr a "unit" = Some "M" /\ 1000000000 <= n
          \/ getAttr a "unit" = Some "G" /\ 10000 <= n) as Hu'.
  { unfold request_attr in Hu. by rewrite Hq, Ha in Hu. }
  clear Hu. unfold iq_create. rewrite Hq. run_monad. rewrite Ha. cbv beta iota.
  destruct (getAttr a "name") as [name|]; [|by eexists].
  destruct (getAttr a "format") as [fmt|]; [|by eexists].
  rewrite Hsz, Hn.
  destruct Hu' as [[-> Hge]|[-> Hge]]; cbn [bool_decide decide_rel].
  - rewrite bool_decide_eq_true_2 by done.
    apply Z.leb_le in Hge. rewrite Hge. by eexists.
  - rewrite bool_decide_eq_false_2 by done.
    rewrite bool_decide_eq_true_2 by done.
    apply Z.leb_le in Hge. rewrite Hge. by eexists.
Qed.

(** Case analysis on whatever the run is stuck on. *)
Ltac step :=
  match goal with
  | |- context [match ?x with _ => _ end] =>
      lazymatch x with
      | context [match _ with _ => _ end] => fail
      | _ => destruct x eqn:?
      end
  end; cbv beta iota.

Lemma iq_create_taken iq w name fmt :
  request_attr iq "name" = Some name ->
  request_attr iq "format" = Some fmt ->
  create_disk_path (folder w) (sanitize name) fmt ∈ files w ->
  exists ex, iq_create self host iq w = (w, Ok (Error ex (-3001))).
Proof.
  intros Hname Hfmt Hin.
  apply request_attr_tags in Hname as (q & a & Hq & Ha & Hname).
  unfold request_attr in Hfmt. rewrite Hq, Ha in Hfmt.
  unfold iq_create. rewrite Hq. run_monad. rewrite Ha. cbv beta iota.
  rewrite Hname, Hfmt. cbv beta iota.
  repeat first [rewrite (bool_decide_eq_true_2 _ Hin); cbv beta iota | step];
    by eexists.
Qed.

Lemma iq_rename_taken iq w path newname :
  request_attr iq "path" = Some path ->
  request_attr iq "newname" = Some newname ->
  rename_newpath (folder w) (sanitize newname) path ∈ files w ->
  exists ex, iq_rename iq w = (w, Ok (Error ex (-3006))).
Proof.
  intros Hpath Hnew Hin.
  apply request_attr_tags in Hpath as (q & a & Hq & Ha & Hpath).
  unfold request_attr in Hnew. rewrite Hq, Ha in Hnew.
  unfold iq_rename. rewrite Hq. run_monad. rewrite Ha. cbv beta iota.
  rewrite Hpath, Hnew. cbv beta iota.
  rewrite (bool_decide_eq_true_2 _ Hin). by eexists.
Qed.

Lemma iq_convert_taken iq w path fmt :
  request_attr iq "path" = Some path ->
  request_attr iq "format" = Some fmt ->
  convert_disk_path path fmt ∈ files w ->
  exists ex w',
    iq_convert self host iq w = (w', Ok (Error ex (-3005)))
    /\ files w' = files w
    /\ definition w' = definition w
    /\ trace w' = (trace w ++ [Presence (xmppstatusshow w) (xmppstatus w)])%list.
Proof.
  intros Hpath Hfmt Hin.
  apply request_attr_tags in Hpath as (q & a & Hq & Ha & Hpath).
  unfold request_attr in Hfmt. rewrite Hq, Ha in Hfmt.
  unfold iq_convert. rewrite Hq. run_monad. rewrite Ha. cbv beta iota.
  rewrite Hpath, Hfmt. cbv beta iota.
  rewrite (bool_decide_eq_true_2 _ Hin). by eexists _, _.
Qed.

Lemma dispatch_unknown code action iq w :
  is_migrating w = false ->
  (forall a, In a known_actions -> action <> Some a) ->
  dispatch self host code action iq w = (w, Ok None).
Proof.
  intros Hm Hun. unfold dispatch, bind, gets. rewrite Hm. cbv beta iota. simpl andb.
  rewrite !bool_decide_eq_false_2; [done|..]; apply Hun; simpl; tauto.
Qed.

(** *** Reading a run that ended normally *)

Lemma bind_ok {A B} (m : M A) (f : A -> M B) w w' b :
  bind m f w = (w', Ok b) ->
  exists a w1, m w = (w1, Ok a) /\ f a w1 = (w', Ok b).
Proof.
  unfold bind. destruct (m w) as [w1 [a|e]]; [|done]. intros H. by exists a, w1.
Qed.

Lemma pure_ok {A} (a a' : A) w w' : pure a w = (w', Ok a') -> w' = w /\ a' = a.
Proof. by intros [= <- <-]. Qed.

Lemma gets_ok {A} (f : World -> A) w w' a : gets f w = (w', Ok a) -> w' = w /\ a = f w.
Proof. by intros [= <- <-]. Qed.

Lemma must_ok {A} e (o : option A) w w' a : must e o w = (w', Ok a) -> w' = w /\ o = Some a.
Proof. destruct o; [|done]. by intros [= <- <-]. Qed.

Lemma deref_ok {A} (o : option A) w w' a : deref o w = (w', Ok a) -> w' = w /\ o = Some a.
Proof. destruct o; [|done]. by intros [= <- <-]. Qed.

Lemma when_raise_ok b e w w' u :
  when b (raise e) w = (w', Ok u) -> w' = w /\ b = false.
Proof. destruct b; [done|]. by intros [= <-]. Qed.

Lemma archipel_attr_ok iq key w w' v :
  archipel_attr (getTag iq "query") key w = (w', Ok v) ->
  w' = w /\ v = request_attr iq key /\ exists q a, getTag iq "query" = Some q /\ getTag q "archipel" = Some a.
Proof.
  unfold request_attr. destruct (getTag iq "query") as [q|]; [|done].
  destruct (getTag q "archipel") as [a|] eqn:Ha.
  - rewrite (archipel_attr_run q a key w Ha). intros [= <- <-]. eauto 6.
  - by rewrite (archipel_attr_no_node q key w Ha).
Qed.

Lemma unlink_ok p w w' u :
  unlink p w = (w', Ok u) ->
  p ∈ files w /\
  w' = mkWorld (folder w) (xmppstatus w) (xmppstatusshow w) (is_migrating w)
               (definition w) (files w ∖ {[p]}) (trace w).
Proof.
  unfold unlink. run_monad. case_bool_decide; [|done]. by intros [= <-].
Qed.

Lemma call_ok argv w w' ret :
  call host argv w = (w', Ok ret) ->
  exists fs', subprocess_call host argv (files w) = Some (ret, fs') /\
  w' = mkWorld (folder w) (xmppstatus w) (xmppstatusshow w) (is_migrating w)
               (definition w) fs' (trace w ++ [Call argv])%list.
Proof.
  unfold call. run_monad. cbn [files].
  destruct (subprocess_call host argv (files w)) as [[r fs']|]; [|done].
  intros [= <- <-]. by exists fs'.
Qed.

Lemma libvirt_defineXML_ok w w' u :
  libvirt_defineXML host w = (w', Ok u) ->
  exists doc, definition w = Some doc /\ defineXML host doc = true /\
  w' = mkWorld (folder w) (xmppstatus w) (xmppstatusshow w) (is_migrating w)
               (definition w) (files w) (trace w ++ [Define doc])%list.
Proof.
  unfold libvirt_defineXML. run_monad.
  destruct (definition w) as [doc|] eqn:Hd; [|done]. cbv beta iota.
  destruct (defineXML host doc) eqn:Hx; [|done]. intros [= <-]. exists doc. by rewrite Hd.
Qed.

Lemma emit_ok e w w' u :
  emit e w = (w', Ok u) ->
  w' = mkWorld (folder w) (xmppstatus w) (xmppstatusshow w) (is_migrating w)
               (definition w) (files w) (trace w ++ [e])%list.
Proof. by intros [= <-]. Qed.

Lemma change_presence_ok show status w w' u :
  change_presence show status w = (w', Ok u) ->
  w' = mkWorld (folder w) status show (is_migrating w)
               (definition w) (files w) (trace w ++ [Presence show status])%list.
Proof. by intros [= <-]. Qed.

Lemma devices_node_ok w w' doc dev devices :
  devices_node w = (w', Ok (doc, dev, devices)) ->
  w' = w /\ definition w = Some doc /\ getTag_ref doc "devices" = Some dev
  /\ getChildren doc !! dev = Some devices.
Proof.
  unfold devices_node. run_monad.
  destruct (definition w) as [d|]; [|done]. cbv beta iota.
  destruct (getTag_ref d "devices") as [i|] eqn:Hi; [|done]. cbv beta iota.
  destruct (getChildren d !! i) as [k|] eqn:Hk; [|done]. cbv beta iota.
  by intros [= <- <- <- <-].
Qed.

(** A handler that answered with a result ran its [try] block to the end. *)
Lemma try_result (body : M Reply) code w w' payload :
  try_except body (fun ex => build_error_iq ex code) w = (w', Ok (Result payload)) ->
  body w = (w', Ok (Result payload)).
Proof. unfold try_except. by destruct (body w) as [w1 [r|e]]. Qed.

(** *** The definition document during [iq_delete] *)

Section Undefine.

Variables (doc devices : Node) (dev : nat) (path : string).
Hypothesis Hdev : getTag_ref doc "devices" = Some dev.
Hypothesis Hdevices : getChildren doc !! dev = Some devices.

Lemma with_entries_original : with_entries doc devices dev (getChildren devices) = doc.
Proof. unfold with_entries. rewrite set_kids_children. by apply set_kid_same. Qed.

Lemma devices_node_run ks w :
  definition w = Some (with_entries doc devices dev ks) ->
  devices_node w = (w, Ok (with_entries doc devices dev ks, dev, set_kids devices ks)).
Proof.
  intros Hd. unfold devices_node. run_monad. rewrite Hd. cbv beta iota.
  unfold with_entries at 1 2.
  rewrite (getTag_ref_set_kid "devices" doc dev devices) by (done || by destruct devices).
  rewrite Hdev. cbv beta iota.
  by rewrite (set_kid_lookup doc dev _ devices Hdevices).
Qed.

Lemma store_kids_run ks live w :
  definition w = Some (with_entries doc devices dev ks) ->
  store_kids live w = (with_definition (Some (with_entries doc devices dev (live.*2))) w, Ok tt).
Proof.
  intros Hd. unfold store_kids, bind. rewrite (devices_node_run ks w Hd).
  unfold set_definition, modify, with_entries.
  by rewrite set_kid_twice, set_kids_twice.
Qed.

Lemma with_definition_twice d1 d2 w :
  with_definition d2 (with_definition d1 w) = with_definition d2 w.
Proof. reflexivity. Qed.

Lemma with_definition_same w d : definition w = d -> with_definition d w = w.
Proof. intros <-. by destruct w. Qed.

Lemma survivors_hit i n rest live :
  on_path path (i, n) = true ->
  survivors path ((i, n) :: rest) live = survivors path rest (delChild live i).
Proof.
  intros Hn. unfold survivors, delChild. rewrite filter_twice.
  apply List.filter_ext. intros o. cbn [existsb fst]. rewrite Hn, andb_true_r.
  rewrite negb_orb. by rewrite (Nat.eqb_sym i).
Qed.

Lemma survivors_miss i n rest live :
  on_path path (i, n) = false ->
  survivors path ((i, n) :: rest) live = survivors path rest live.
Proof.
  intros Hn. unfold survivors. apply List.filter_ext. intros o.
  cbn [existsb]. by rewrite Hn, andb_false_r.
Qed.

Lemma undefine_disks_run disk_nodes : forall live have w w' b,
  definition w = Some (with_entries doc devices dev (live.*2)) ->
  undefine_disks path disk_nodes live have w = (w', Ok b) ->
  w' = with_definition (Some (with_entries doc devices dev ((survivors path disk_nodes live).*2))) w
  /\ b = (have || existsb (on_path path) disk_nodes)%bool.
Proof.
  induction disk_nodes as [|[i disk_node] rest IH]; intros live have w w' b Hd.
  - cbn [undefine_disks]. unfold pure. intros [= <- <-]. split; [|by rewrite orb_false_r].
    unfold survivors. cbn [existsb negb]. rewrite filter_all.
    rewrite with_definition_same; [reflexivity|exact Hd].
  - cbn [undefine_disks existsb]. unfold bind at 1, deref.
    assert (on_path path (i, disk_node)
            = match getTag disk_node "source" with
              | Some source => bool_decide (getAttr source "file" = Some path)
              | None => false
              end) as Hon.
    { unfold on_path, source_file. cbn [snd].
      destruct (getTag disk_node "source"); [done|]. by apply bool_decide_eq_false_2. }
    destruct (getTag disk_node "source") as [source|]; [|intros [=]].
    unfold pure at 1. cbv beta iota. rewrite <- Hon.
    destruct (on_path path (i, disk_node)) eqn:Hhit.
    + unfold bind at 1. rewrite (store_kids_run _ _ _ Hd). intros Hrun.
      apply IH in Hrun as [-> ->]; [|done].
      by rewrite with_definition_twice, orb_true_r, survivors_hit.
    + intros Hrun. apply IH in Hrun as [-> ->]; [|done].
      by rewrite survivors_miss.
Qed.

Lemma getTag_with_entries ks : getTag (with_entries doc devices dev ks) "devices" = Some (set_kids devices ks).
Proof.
  apply (getTag_ref_lookup _ _ dev).
  - unfold with_entries.
    rewrite (getTag_ref_set_kid "devices" doc dev devices) by (done || by destruct devices).
    done.
  - unfold with_entries. by rewrite (set_kid_lookup doc dev _ devices Hdevices).
Qed.

Lemma device_entries_with_entries ks : device_entries (Some (with_entries doc devices dev ks)) = ks.
Proof. unfold device_entries. rewrite getTag_with_entries. by destruct devices. Qed.

Lemma device_entries_doc : device_entries (Some doc) = getChildren devices.
Proof. unfold device_entries. by rewrite (getTag_ref_lookup doc "devices" dev devices). Qed.

Lemma file_disk_on_split n :
  file_disk_on path n
  = (is_tag "disk" n && has_attrs [("type", "file")] n) && on_path path (0%nat, n).
Proof. reflexivity. Qed.

(** Among the children, the loop visits the disks of type "file"; those on
    [path] are the ones it removes. *)
Lemma survivors_getTags :
  (survivors path (getTags devices "disk" [("type", "file")]) (objects (getChildren devices))).*2
  = List.filter (fun n => negb (file_disk_on path n)) (getChildren devices).
Proof.
  unfold objects. rewrite <- (objects_from_filter (fun n => negb (file_disk_on path n)) O).
  f_equal. unfold survivors. apply List.filter_ext_in. intros o Ho. f_equal.
  apply eq_true_iff_eq. rewrite existsb_exists. unfold getTags, objects. split.
  - intros (d & Hd & Hm). apply List.filter_In in Hd as [Hd HP].
    apply andb_prop in Hm as [Hid Hp]. apply Nat.eqb_eq in Hid.
    rewrite (objects_from_unique _ _ _ _ Hd Ho Hid) in *.
    rewrite file_disk_on_split. apply andb_true_intro. split; [done|].
    by destruct o.
  - intros Hf. rewrite file_disk_on_split in Hf. apply andb_prop in Hf as [HP Hp].
    exists o. split.
    + apply List.filter_In. by split.
    + rewrite Nat.eqb_refl. by destruct o.
Qed.

Lemma existsb_objects_filter (p f : Node -> bool) i ks :
  existsb (fun o => f o.2) (List.filter (fun o => p o.2) (objects_from i ks))
  = existsb (fun n => p n && f n) ks.
Proof.
  revert i. induction ks as [|k ks IH]; intros i; simpl; [done|].
  destruct (p k); simpl; by rewrite IH.
Qed.

Lemma existsb_getTags :
  existsb (on_path path) (getTags devices "disk" [("type", "file")])
  = existsb (file_disk_on path) (getChildren devices).
Proof.
  exact (existsb_objects_filter
           (fun n => is_tag "disk" n && has_attrs [("type", "file")] n)
           (fun n => on_path path (0%nat, n)) O (getChildren devices)).
Qed.

End Undefine.

(** *** The definition document during [iq_convert] *)






Section Retarget.

Variables (doc devices : Node) (dev : nat) (path format disk_path : string).
Hypothesis Hdev : getTag_ref doc "devices" = Some dev.
Hypothesis Hdevices : getChildren doc !! dev = Some devices.

Lemma devices_node_doc w :
  definition w = Some doc -> devices_node w = (w, Ok (doc, dev, devices)).
Proof.
  intros Hd. unfold devices_node. run_monad. by rewrite Hd, Hdev, Hdevices.
Qed.

Lemma store_drive_run i drive w :
  definition w = Some doc ->
  store_drive i drive w
  = (with_definition (Some (set_kid doc dev (set_kid devices i drive))) w, Ok tt).
Proof. intros Hd. unfold store_drive, bind. by rewrite (devices_node_doc w Hd). Qed.

(** The loop stops at the first drive on [path], retargets it and commits;
    without such a drive it does nothing. *)
Lemma convert_drives_run drives : forall w,
  definition w = Some doc ->
  convert_drives host path format disk_path drives w
  = match List.find (on_path path) drives with
    | Some (i, drive) =>
        define host (with_definition
                       (Some (set_kid doc dev
                                (set_kid devices i (retarget_drive format disk_path drive)))) w)
    | None => (w, Ok tt)
    end.
Proof.
  induction drives as [|[i drive] rest IH]; intros w Hd; [done|].
  cbn [convert_drives List.find]. unfold on_path at 1, source_file. cbn [snd].
  destruct (getTag drive "source") as [source|].
  - destruct (bool_decide (getAttr source "file" = Some path)); [|by apply IH].
    unfold bind. by rewrite (store_drive_run _ _ _ Hd).
  - rewrite bool_decide_eq_false_2 by done. by apply IH.
Qed.

End Retarget.

Lemma find_filter {A} (p f : A -> bool) (l : list A) :
  List.find f (List.filter p l) = List.find (fun x => p x && f x) l.
Proof.
  induction l as [|x l IH]; simpl; [done|].
  destruct (p x); simpl; [destruct (f x)|]; done.
Qed.

Lemma find_ext {A} (f g : A -> bool) (l : list A) :
  (forall x, f x = g x) -> List.find f l = List.find g l.
Proof. intros E. induction l as [|x l IH]; simpl; [done|]. by rewrite E, IH. Qed.

Lemma find_getTags_disk path devices :
  List.find (on_path path) (getTags devices "disk" [])
  = first_disk_on path (getChildren devices).
Proof.
  unfold getTags, first_disk_on. rewrite find_filter.
  apply find_ext. intros o. unfold disk_on, on_path. simpl. by rewrite andb_true_r.
Qed.



Lemma first_disk_on_none path ks :
  first_disk_on path ks = None -> Forall (fun k => disk_on path k = false) ks.
Proof.
  unfold first_disk_on, objects. generalize O.
  induction ks as [|k ks IH]; intros i; simpl; [by constructor|].
  destruct (disk_on path k) eqn:E; [done|]. intros H. constructor; [done|]. by eapply IH.
Qed.

Lemma try_result_restoring (body : M Reply) show status code w w' payload :
  try_except body (fun ex => change_presence show status;; build_error_iq ex code) w
  = (w', Ok (Result payload)) ->
  body w = (w', Ok (Result payload)).
Proof. unfold try_except. by destruct (body w) as [w1 [r|e]]. Qed.

Ltac next H H1 := apply bind_ok in H as (? & ? & H1 & H).
Ltac next_as H H1 a := apply bind_ok in H as (a & ? & H1 & H).
Ltac next_at H H1 w1 := apply bind_ok in H as (? & w1 & H1 & H).

Lemma filter_negb_Forall {A} (f : A -> bool) (l : list A) :
  Forall (fun x => f x = false) (List.filter (fun x => negb (f x)) l).
Proof.
  apply List.Forall_forall. intros x Hx. apply List.filter_In in Hx as [_ Hx].
  by apply negb_true_iff.
Qed.

(** C6, as the code has it: a delete with undefine "yes" that succeeds
    removes from the definition document every disk entry of type "file"
    whose source file is the deleted path and nothing else, so that no such
    entry is left; the document is handed to the hypervisor and the
    definition-changed notification pushed exactly when an entry was
    removed. *)
Theorem iq_delete_unbinds_file_disks iq w w' name payload :
  request_attr iq "name" = Some name ->
  request_attr iq "undefine" = Some "yes" ->
  iq_delete host iq w = (w', Ok (Result payload)) ->
  let path := secure_disk_path (folder w) name in
  let removed := existsb (file_disk_on path) (device_entries (definition w)) in
  device_entries (definition w')
  = List.filter (fun n => negb (file_disk_on path n)) (device_entries (definition w))
  /\ Forall (fun n => file_disk_on path n = false) (device_entries (definition w'))
  /\ (removed = true -> is_Some (definition w'))
  /\ files w' = files w ∖ {[path]}
  /\ trace w'
     = (trace w ++ [Presence (Some "dnd") (Some "Deleting a drive...")]
        ++ (if removed then commit_events (definition w') else [])
        ++ [Presence (xmppstatusshow w) (xmppstatus w);
            LogInfo ("disk " +:+ path +:+ " deleted");
            PushChange "disk" "deleted";
            Shout "disk" ("I've just deleted the hard drive named " +:+ name +:+ ".")])%list.
Proof.
  intros Hname Hundef Hrun path removed.
  assert (forall P : Prop, (device_entries (definition w')
    = List.filter (fun n => negb (file_disk_on path n)) (device_entries (definition w)) /\ P)
    -> device_entries (definition w')
       = List.filter (fun n => negb (file_disk_on path n)) (device_entries (definition w))
       /\ Forall (fun n => file_disk_on path n = false) (device_entries (definition w')) /\ P)
    as Hshape.
  { intros P [-> HP]. auto using filter_negb_Forall. }
  apply Hshape. clear Hshape.
  unfold iq_delete in Hrun.
  apply try_result in Hrun.
  next Hrun H1. apply archipel_attr_ok in H1 as (-> & -> & _). rewrite Hname in Hrun.
  next Hrun H1. apply deref_ok in H1 as (-> & [= <-]).
  next Hrun H1. apply gets_ok in H1 as (-> & ->). fold path in Hrun.
  next Hrun H1. apply gets_ok in H1 as (-> & ->).
  next Hrun H1. apply gets_ok in H1 as (-> & ->).
  next Hrun H1. apply change_presence_ok in H1 as ->.
  next Hrun H1. apply unlink_ok in H1 as (Hin & ->).
  cbn [files folder definition xmppstatus xmppstatusshow is_migrating trace] in *.
  next Hrun H1. apply gets_ok in H1 as (-> & ->). cbn [definition] in Hrun.
  next Hrun Hnodes.
  next Hrun H1. apply archipel_attr_ok in H1 as (-> & -> & _). rewrite Hundef in Hrun.
  rewrite bool_decide_eq_true_2 in Hrun by done. cbn [when] in Hrun.
  next Hrun Hloop. next Hloop Hloop1.
  run_monad_in Hrun. injection Hrun as <- _.
  cbn [files folder definition xmppstatus xmppstatusshow is_migrating trace].
  subst removed.
  destruct (definition w) as [doc|] eqn:Hdoc.
  - next_as Hnodes H1 t. destruct t as [[doc' dev] devices].
    apply devices_node_ok in H1 as (-> & Hd & Hdev & Hdevices).
    cbn [definition] in Hd. injection Hd as <-.
    apply pure_ok in Hnodes as (-> & ->). cbn [fst snd] in Hloop1.
    apply (undefine_disks_run doc devices dev path Hdev Hdevices) in Hloop1 as [-> ->].
    2:{ cbn [definition]. unfold objects. rewrite objects_from_snd.
        by rewrite with_entries_original. }
    rewrite survivors_getTags in Hloop.
    rewrite existsb_getTags in Hloop. cbn [orb] in Hloop.
    rewrite (device_entries_doc _ _ _ Hdev Hdevices).
    destruct (existsb (file_disk_on path) (getChildren devices)).
    + cbn [when] in Hloop. next Hloop H1.
      apply libvirt_defineXML_ok in H1 as (d & Hd & _ & ->).
      apply emit_ok in Hloop as ->.
      cbn [files folder definition xmppstatus xmppstatusshow is_migrating trace
           with_definition] in *.
      injection Hd as <-.
      rewrite (device_entries_with_entries _ _ _ Hdev Hdevices).
      repeat split; [by eexists|]. cbn [commit_events].
      by rewrite <- !app_assoc.
    + apply pure_ok in Hloop as (-> & _).
      cbn [files folder definition xmppstatus xmppstatusshow is_migrating trace
           with_definition].
      rewrite (device_entries_with_entries _ _ _ Hdev Hdevices).
      repeat split; [done|]. by rewrite <- !app_assoc.
  - apply pure_ok in Hnodes as (-> & ->). cbn [fst snd undefine_disks] in Hloop1.
    apply pure_ok in Hloop1 as (-> & ->). apply pure_ok in Hloop as (-> & _).
    cbn [files folder definition xmppstatus xmppstatusshow is_migrating trace].
    repeat split; [done|]. cbn [device_entries existsb].
    by rewrite <- !app_assoc.
Qed.

Lemma gets_bind {A B} (f : World -> A) (k : A -> M B) w : bind (gets f) k w = k (f w) w.
Proof. reflexivity. Qed.

(** X10: [iq_convert] leaves the presence it found, however it ends. *)
Lemma iq_convert_restores_presence iq w :
  let w' := (iq_convert self host iq w).1 in
  xmppstatus w' = xmppstatus w /\ xmppstatusshow w' = xmppstatusshow w.
Proof.
  unfold iq_convert. rewrite !gets_bind. unfold try_except.
  match goal with |- context [match ?b w with _ => _ end] =>
    destruct (b w) as [w1 [r|e]] eqn:Hrun end; [|done].
  do 12 (let H := fresh in next Hrun H; clear H).
  run_monad_in Hrun. by injection Hrun as <- _.
Qed.


(** C5: when the destination a create, rename or convert request works out
    is already a path of the filesystem, the request is answered with the
    error code of its action and the filesystem is left as it was; create and
    rename leave the whole world as it was, convert adds to the trace only
    the presence it restores, and no subprocess is run. *)
Theorem existing_destination_is_refused iq w :
  (forall name format,
      request_attr iq "name" = Some name ->
      request_attr iq "format" = Some format ->
      create_disk_path (folder w) (sanitize name) format ∈ files w ->
      exists ex, iq_create self host iq w = (w, Ok (Error ex (-3001))))
  /\ (forall path newname,
        request_attr iq "path" = Some path ->
        request_attr iq "newname" = Some newname ->
        rename_newpath (folder w) (sanitize newname) path ∈ files w ->
        exists ex, iq_rename iq w = (w, Ok (Error ex (-3006))))
  /\ (forall path format,
        request_attr iq "path" = Some path ->
        request_attr iq "format" = Some format ->
        convert_disk_path path format ∈ files w ->
        exists ex w',
          iq_convert self host iq w = (w', Ok (Error ex (-3005)))
          /\ files w' = files w
          /\ definition w' = definition w
          /\ trace w' = (trace w ++ [Presence (xmppstatusshow w) (xmppstatus w)])%list).
Proof.
  split; [|split].
  - intros name format. apply iq_create_taken.
  - intros path newname. apply iq_rename_taken.
  - intros path format. apply iq_convert_taken.
Qed.

(** C10: when the machine is not migrating and the action is none of
    create, delete, get, getiso, convert and rename, the chain of the
    dispatcher takes no branch, so that no handler runs, and [process_iq]
    returns normally in the world it was given: nothing is sent. *)
Theorem process_iq_drops_unknown_action code action iq w :
  is_migrating w = false ->
  (forall a, In a known_actions -> action <> Some a) ->
  dispatch self host code action iq w = (w, Ok None)
  /\ process_iq self host code action iq w = (w, Ok tt).
Proof.
  intros Hm Hun. split; [by apply dispatch_unknown|].
  unfold process_iq, bind. by rewrite (dispatch_unknown code action iq w Hm Hun).
Qed.

(** X14: a delete of a file that is not there answers with error -3002 and
    leaves the presence at the busy state it announced. *)
Lemma iq_delete_missing_file iq w name :
  request_attr iq "name" = Some name ->
  secure_disk_path (folder w) name ∉ files w ->
  iq_delete host iq w
  = (mkWorld (folder w) (Some "Deleting a drive...") (Some "dnd") (is_migrating w)
             (definition w) (files w)
             (trace w ++ [Presence (Some "dnd") (Some "Deleting a drive...")])%list,
     Ok (Error OSError (-3002))).
Proof.
  intros Hname Hout.
  apply request_attr_tags in Hname as (q & a & Hq & Ha & Hname).
  unfold iq_delete, unlink. rewrite Hq. run_monad. rewrite Ha. cbv beta iota.
  rewrite Hname. cbv beta iota. cbn [files folder].
  by rewrite (bool_decide_eq_false_2 _ Hout).
Qed.

(** X15: a delete that succeeds leaves the presence it found. *)
Lemma iq_delete_success_restores_presence iq w w' payload :
  iq_delete host iq w = (w', Ok (Result payload)) ->
  xmppstatus w' = xmppstatus w /\ xmppstatusshow w' = xmppstatusshow w.
Proof.
  intros Hrun. unfold iq_delete in Hrun. apply try_result in Hrun.
  next Hrun H1. apply archipel_attr_ok in H1 as (-> & -> & _).
  next Hrun H1. apply deref_ok in H1 as (-> & _).
  next Hrun H1. apply gets_ok in H1 as (-> & ->).
  next Hrun H1. apply gets_ok in H1 as (-> & ->).
  next Hrun H1. apply gets_ok in H1 as (-> & ->).
  do 6 (let H := fresh in next Hrun H; clear H).
  run_monad_in Hrun. by injection Hrun as <- _.
Qed.

(** X16: a delete that succeeds without the undefine flag at "yes" leaves the
    definition document as it is. *)
Lemma iq_delete_keeps_definition iq w w' payload :
  request_attr iq "undefine" <> Some "yes" ->
  iq_delete host iq w = (w', Ok (Result payload)) ->
  definition w' = definition w.
Proof.
  intros Hflag Hrun. unfold iq_delete in Hrun. apply try_result in Hrun.
  next Hrun H1. apply archipel_attr_ok in H1 as (-> & -> & _).
  next Hrun H1. apply deref_ok in H1 as (-> & _).
  next Hrun H1. apply gets_ok in H1 as (-> & ->).
  next Hrun H1. apply gets_ok in H1 as (-> & ->).
  next Hrun H1. apply gets_ok in H1 as (-> & ->).
  next Hrun H1. apply change_presence_ok in H1 as ->.
  next Hrun H1. apply unlink_ok in H1 as (_ & ->).
  next Hrun H1. apply gets_ok in H1 as (-> & ->).
  next_at Hrun Hnodes w2.
  assert (definition w2 = definition w) as Hsame.
  { cbn [definition] in Hnodes. destruct (definition w).
    - next_as Hnodes H1 t. destruct t as [[doc dev] devices].
      apply devices_node_ok in H1 as (-> & _). by apply pure_ok in Hnodes as (-> & _).
    - by apply pure_ok in Hnodes as (-> & _). }
  next Hrun H1. apply archipel_attr_ok in H1 as (-> & -> & _).
  rewrite bool_decide_eq_false_2 in Hrun by done. cbn [when] in Hrun.
  run_monad_in Hrun. by injection Hrun as <- _.
Qed.

(** *** The reply of [iq_getiso] *)

Lemma popen_ok argv w w' out :
  popen host argv w = (w', Ok out) ->
  popen_stdout host argv (files w) = Some out
  /\ w' = mkWorld (folder w) (xmppstatus w) (xmppstatusshow w) (is_migrating w)
                  (definition w) (files w) (trace w ++ [Popen argv])%list.
Proof.
  unfold popen. run_monad. cbn [files].
  destruct (popen_stdout host argv (files w)); [|done]. by intros [= <- <-].
Qed.

(** A loop of [iq_getiso] that ends normally appends the descriptors, tagged
    with [tagged], of the entries whose namesake in [probed] is classified as
    an ISO image. *)
Lemma get_isos_ok probed tagged isos : forall nodes w w' res,
  get_isos host probed tagged isos nodes w = (w', Ok res) ->
  folder w' = folder w /\ files w' = files w
  /\ res = (nodes ++ map (iso_descriptor tagged)
                       (List.filter (fun iso => classified_iso host (files w)
                                                  (probed +:+ "/" +:+ iso)) isos))%list.
Proof.
  induction isos as [|iso rest IH]; intros nodes w w' res.
  - cbn [get_isos]. intros [= <- <-]. by rewrite app_nil_r.
  - cbn [get_isos List.filter]. intros Hrun.
    next Hrun H1. apply popen_ok in H1 as (Hout & ->).
    unfold classified_iso at 1. rewrite Hout.
    destruct (0 <=? _); apply IH in Hrun as (-> & -> & ->); cbn [folder files map].
    + by rewrite <- app_assoc.
    + done.
Qed.

(** X20: what [iq_getiso] replies: the entries of the private folder, then those
    of the shared folder, both kept when their namesake in the shared folder
    is classified as an ISO image. *)
Lemma iq_getiso_payload iq w w' payload :
  iq_getiso self host iq w = (w', Ok (Result payload)) ->
  exists private shared,
    popen_stdout host ["ls"; folder w] (files w) = Some private
    /\ popen_stdout host ["ls"; shared_isos_folder self] (files w) = Some shared
    /\ let probe iso := classified_iso host (files w) (shared_isos_folder self +:+ "/" +:+ iso) in
       payload
       = (map (iso_descriptor (folder w)) (List.filter probe (PyStr.words private))
          ++ map (iso_descriptor (shared_isos_folder self))
                 (List.filter probe (PyStr.words shared)))%list.
Proof.
  intros Hrun. unfold iq_getiso in Hrun. apply try_result in Hrun.
  next Hrun H1. apply gets_ok in H1 as (-> & ->).
  next_as Hrun H1 private. apply popen_ok in H1 as (Hprivate & ->).
  next Hrun H1. apply get_isos_ok in H1 as (Hfolder & Hfiles & ->).
  next_as Hrun H2 shared. apply popen_ok in H2 as (Hshared & ->).
  next Hrun H2. apply get_isos_ok in H2 as (_ & _ & ->).
  run_monad_in Hrun. injection Hrun as _ <-.
  cbn [files folder] in *. rewrite Hfiles in *.
  exists private, shared. by repeat split.
Qed.

End Run.

(** ** The sanitised name *)



(** The guarantee is about the name: the format of a create request and the
    extension of a rename request are not sanitised, and one holding
    separators takes the path out of the folder. *)
Remark format_is_not_sanitized :
  Path.escapes (sanitize "x" +:+ "." +:+ "/../../etc/cron.d/x") = true.
Proof. reflexivity. Qed.

(** ** The path [iq_delete] unlinks *)

(** The path is the folder, a separator and one segment free of
    separators. *)
Lemma secure_disk_path_one_segment dir name :
  exists leaf, secure_disk_path dir name = dir +:+ "/" +:+ leaf
               /\ PyStr.contains "/" leaf = false.
Proof. eexists. split; [reflexivity|]. apply last_segment_no_separator. Qed.

(** Unless that segment is a pair of dots, the path does not leave the
    folder. *)
Lemma secure_disk_path_confined name :
  PyStr.last_item (PyStr.split "/" name) <> ".." ->
  Path.escapes (PyStr.last_item (PyStr.split "/" name)) = false.
Proof.
  intros Hne. unfold Path.escapes.
  rewrite resolve_under_leaf by apply last_segment_no_separator.
  apply String.eqb_neq in Hne. rewrite Hne. by repeat case_match.
Qed.

(** C4 fails on the name "..": its last segment is a pair of dots, the
    path handed to [os.unlink] is the parent of the private folder, and the
    same holds for any name ending in "/..". *)
Theorem secure_disk_path_parent_escapes :
  secure_disk_path "/vm" ".." = "/vm/.."
  /\ Path.resolve_under (PyStr.last_item (PyStr.split "/" "..")) = None
  /\ secure_disk_path "/vm" "disks/.." = "/vm/.."
  /\ Path.escapes (PyStr.last_item (PyStr.split "/" "disks/..")) = true.
Proof. repeat split; reflexivity. Qed.

(** ** The handlers on the sample machine *)

Ltac in_files := apply (bool_decide_unpack _); vm_compute; exact I.

Lemma iq_create_rejects_oversized_witness :
  exists ex, iq_create Demo.plugin Demo.host Demo.create_big Demo.world
             = (Demo.world, Ok (Error ex (-3001))).
Proof.
  apply (iq_create_rejects_oversized Demo.plugin Demo.host Demo.create_big Demo.world
           1000000000).
  - vm_compute. reflexivity.
  - left. split; [vm_compute; reflexivity | lia].
Defined.

Lemma existing_destination_is_refused_witness :
  (exists ex, iq_create Demo.plugin Demo.host Demo.create_taken Demo.world
              = (Demo.world, Ok (Error ex (-3001))))
  /\ (exists ex, iq_rename Demo.rename_taken Demo.world
                 = (Demo.world, Ok (Error ex (-3006))))
  /\ (exists ex w',
        iq_convert Demo.plugin Demo.host Demo.convert_taken Demo.world
        = (w', Ok (Error ex (-3005)))
        /\ files w' = files Demo.world
        /\ definition w' = definition Demo.world
        /\ trace w' = [Presence None (Some "Online")]).
Proof.
  split; [|split].
  - apply (proj1 (existing_destination_is_refused Demo.plugin Demo.host
                    Demo.create_taken Demo.world) "a" "qcow2").
    + vm_compute. reflexivity.
    + vm_compute. reflexivity.
    + in_files.
  - apply (proj1 (proj2 (existing_destination_is_refused Demo.plugin Demo.host
                           Demo.rename_taken Demo.world)) "/vm/b.img" "img").
    + vm_compute. reflexivity.
    + vm_compute. reflexivity.
    + in_files.
  - apply (proj2 (proj2 (existing_destination_is_refused Demo.plugin Demo.host
                           Demo.convert_taken Demo.world)) "/vm/a.raw" "qcow2").
    + vm_compute. reflexivity.
    + vm_compute. reflexivity.
    + in_files.
Defined.

Lemma process_iq_drops_unknown_action_witness :
  dispatch Demo.plugin Demo.host (-43) (Some "reboot") Demo.reboot Demo.world
  = (Demo.world, Ok None)
  /\ process_iq Demo.plugin Demo.host (-43) (Some "reboot") Demo.reboot Demo.world
     = (Demo.world, Ok tt).
Proof.
  apply (process_iq_drops_unknown_action Demo.plugin Demo.host (-43) (Some "reboot")
           Demo.reboot Demo.world).
  - reflexivity.
  - intros a Ha. simpl in Ha.
    destruct Ha as [<-|[<-|[<-|[<-|[<-|[<-|[]]]]]]]; discriminate.
Defined.

(** The dispatcher does reach a handler for an action it knows. *)
Example process_iq_getiso_answers :
  (process_iq Demo.plugin Demo.host (-43) (Some "getiso") Demo.getiso Demo.world).2
  = Raise NodeProcessed.
Proof. vm_compute. reflexivity. Qed.

Lemma iq_delete_unbinds_file_disks_witness :
  let w := Demo.world in
  let w' := (iq_delete Demo.host Demo.delete_a w).1 in
  let path := secure_disk_path (folder w) "a.qcow2" in
  let removed := existsb (file_disk_on path) (device_entries (definition w)) in
  device_entries (definition w')
  = List.filter (fun n => negb (file_disk_on path n)) (device_entries (definition w))
  /\ Forall (fun n => file_disk_on path n = false) (device_entries (definition w'))
  /\ (removed = true -> is_Some (definition w'))
  /\ files w' = files w ∖ {[path]}
  /\ trace w'
     = (trace w ++ [Presence (Some "dnd") (Some "Deleting a drive...")]
        ++ (if removed then commit_events (definition w') else [])
        ++ [Presence (xmppstatusshow w) (xmppstatus w);
            LogInfo ("disk " +:+ path +:+ " deleted");
            PushChange "disk" "deleted";
            Shout "disk" ("I've just deleted the hard drive named " +:+ "a.qcow2" +:+ ".")])%list.
Proof.
  apply (iq_delete_unbinds_file_disks Demo.host Demo.delete_a Demo.world _ "a.qcow2" []).
  - vm_compute. reflexivity.
  - vm_compute. reflexivity.
  - vm_compute. reflexivity.
Defined.

Lemma Forall_false_existsb {A} (f : A -> bool) (l : list A) :
  Forall (fun x => f x = false) l -> existsb f l = false.
Proof. induction 1 as [|x l Hx _ IH]; simpl; [done|]. by rewrite Hx, IH. Qed.

(** C6 as stated fails: on the sample machine the delete of a.qcow2 with
    undefine "yes" succeeds and the disk entry without a type attribute still
    has the deleted path as its source file. *)
Lemma iq_delete_keeps_untyped_disk :
  ~ (forall host iq w w' name payload,
        request_attr iq "name" = Some name ->
        request_attr iq "undefine" = Some "yes" ->
        iq_delete host iq w = (w', Ok (Result payload)) ->
        Forall (fun n => disk_on (secure_disk_path (folder w) name) n = false)
               (device_entries (definition w'))).
Proof.
  intros Hclaim.
  assert (iq_delete Demo.host Demo.delete_a Demo.world
          = ((iq_delete Demo.host Demo.delete_a Demo.world).1, Ok (Result []))) as Hrun.
  { vm_compute. reflexivity. }
  assert (request_attr Demo.delete_a "name" = Some "a.qcow2") as Hname.
  { vm_compute. reflexivity. }
  assert (request_attr Demo.delete_a "undefine" = Some "yes") as Hundef.
  { vm_compute. reflexivity. }
  pose proof (Hclaim _ _ _ _ _ _ Hname Hundef Hrun) as Hall.
  apply Forall_false_existsb in Hall. vm_compute in Hall. discriminate.
Qed.


(** On the sample machine the convert of a.qcow2 retargets the first of the
    two disks on it and leaves the second on the old path. *)
Example iq_convert_sample :
  let w' := (iq_convert Demo.plugin Demo.host Demo.convert_a Demo.world).1 in
  map source_file (device_entries (definition w'))
  = [None; Some "/vm/a.raw"; Some "/vm/a.qcow2"; Some "/vm/b.img"]
  /\ map driver_type (device_entries (definition w'))
     = [None; Some "raw"; Some "qcow2"; Some "raw"].
Proof. vm_compute. split; reflexivity. Qed.

(** C1 fails for delete: on the sample machine the delete of a file that is
    not there is answered with error -3002 and the agent, which was "Online",
    is left announcing "Deleting a drive..." with show "dnd". *)
Theorem iq_delete_failure_leaves_busy_presence :
  let r := iq_delete Demo.host Demo.delete_ghost Demo.world in
  r.2 = Ok (Error OSError (-3002))
  /\ (xmppstatus Demo.world, xmppstatusshow Demo.world) = (Some "Online", None)
  /\ (xmppstatus r.1, xmppstatusshow r.1) = (Some "Deleting a drive...", Some "dnd").
Proof. vm_compute. repeat split; reflexivity. Qed.

(** C2 fails when the extension occurs elsewhere in the path: for
    /vm/img.img and format qcow2 the handler works out /vm/.qcow2, not
    /vm/img.qcow2, and on success that is the file it leaves. *)
Theorem convert_disk_path_drops_repeated_extension :
  convert_disk_path "/vm/img.img" "qcow2" = "/vm/.qcow2"
  /\ spec_convert_disk_path "/vm/img.img" "qcow2" = "/vm/img.qcow2"
  /\ let r := iq_convert Demo.plugin Demo.host Demo.convert_img Demo.world in
     r.2 = Ok (Result [])
     /\ "/vm/.qcow2" ∈ files r.1 /\ "/vm/img.qcow2" ∉ files r.1.
Proof.
  split; [reflexivity|]. split; [reflexivity|]. cbv zeta.
  split; [vm_compute; reflexivity|]. split; in_files.
Qed.

(** C3 fails for the private folder: on the sample machine cd.iso, an ISO
    image of the private folder with no namesake in the shared folder, is
    left out of the reply, and notes.iso, a text file of the private folder
    whose namesake in the shared folder is an ISO image, is listed with the
    private folder's path. *)
Theorem iq_getiso_probes_shared_folder :
  let fs := files Demo.world in
  classified_iso Demo.host fs "/vm/cd.iso" = true
  /\ classified_iso Demo.host fs "/vm/notes.iso" = false
  /\ (iq_getiso Demo.plugin Demo.host Demo.getiso Demo.world).2
     = Ok (Result [iso_descriptor "/vm" "notes.iso"; iso_descriptor "/iso/" "notes.iso"]).
Proof. vm_compute. repeat split; reflexivity. Qed.

(** * Further properties of the handlers *)

Ltac peel H H1 := apply bind_ok in H as (? & ? & H1 & H).
Ltac peel_as H H1 a := apply bind_ok in H as (a & ? & H1 & H).
Ltac peel_at H H1 w1 := apply bind_ok in H as (? & w1 & H1 & H).
Ltac peel_all H := repeat (apply bind_ok in H as (? & ? & _ & H)).
Ltac unfold_monad :=
  cbv [try_except bind pure raise gets modify deref must when archipel_attr int_of
       build_error_iq path_exists emit set_files set_definition change_presence
       log_info shout push_change].
Ltac unfold_monad_in H :=
  cbv [try_except bind pure raise gets modify deref must when archipel_attr int_of
       build_error_iq path_exists emit set_files set_definition change_presence
       log_info shout push_change] in H.

Section Replies.

Variable self : Plugin.
Variable host : Host.

(** A [try] block that ends with a result, under a handler that builds the
    error reply of [code], always yields a reply of that code. *)
Lemma try_except_replies (body : M Reply) (restore : M unit) code w :
  (forall w0, exists w1, restore w0 = (w1, Ok tt)) ->
  (forall w' r, body w = (w', Ok r) -> exists payload, r = Result payload) ->
  exists w' r,
    try_except body (fun ex => restore;; build_error_iq ex code) w = (w', Ok r)
    /\ reply_with_code code r.
Proof.
  intros Hrestore Hbody. unfold try_except.
  destruct (body w) as [w' [r|e]] eqn:Hrun.
  - destruct (Hbody _ _ eq_refl) as [payload ->]. by exists w', (Result payload).
  - destruct (Hrestore w') as [w1 Hw1]. exists w1, (Error e code).
    unfold bind. by rewrite Hw1.
Qed.

Lemma try_except_replies_plain (body : M Reply) code w :
  (forall w' r, body w = (w', Ok r) -> exists payload, r = Result payload) ->
  exists w' r,
    try_except body (fun ex => build_error_iq ex code) w = (w', Ok r)
    /\ reply_with_code code r.
Proof.
  intros Hbody. unfold try_except.
  destruct (body w) as [w' [r|e]] eqn:Hrun.
  - destruct (Hbody _ _ eq_refl) as [payload ->]. by exists w', (Result payload).
  - by exists w', (Error e code).
Qed.

Ltac ends_with_result :=
  let w' := fresh "w'" in let r := fresh "r" in let H := fresh "H" in
  intros w' r H; peel_all H; apply pure_ok in H as (_ & ->); by eexists.

(** X4: whatever the request and the world, each of the six handlers returns a
    reply and raises nothing: every exception of its [try] block becomes an
    error reply carrying the code of its own action. *)
Theorem handlers_always_reply iq w :
  (exists w' r, iq_create self host iq w = (w', Ok r) /\ reply_with_code (-3001) r)
  /\ (exists w' r, iq_delete host iq w = (w', Ok r) /\ reply_with_code (-3002) r)
  /\ (exists w' r, iq_get self host iq w = (w', Ok r) /\ reply_with_code (-3003) r)
  /\ (exists w' r, iq_getiso self host iq w = (w', Ok r) /\ reply_with_code (-3004) r)
  /\ (exists w' r, iq_convert self host iq w = (w', Ok r) /\ reply_with_code (-3005) r)
  /\ (exists w' r, iq_rename iq w = (w', Ok r) /\ reply_with_code (-3006) r).
Proof.
  repeat split.
  - apply try_except_replies_plain. ends_with_result.
  - apply try_except_replies_plain. ends_with_result.
  - apply try_except_replies_plain. ends_with_result.
  - apply try_except_replies_plain. ends_with_result.
  - unfold iq_convert. rewrite !gets_bind.
    apply (try_except_replies _ (change_presence (xmppstatusshow w) (xmppstatus w))).
    + intros w0. by eexists.
    + ends_with_result.
  - apply try_except_replies_plain. ends_with_result.
Qed.

End Replies.

Section Dispatcher.

Variable self : Plugin.
Variable host : Host.
Variable code : Z.

(** X2: while the machine is migrating, every action other than get and getiso,
    known or not, is answered with the migrating error: the reply is sent,
    NodeProcessed is raised, no handler runs and nothing else changes. *)
Theorem process_iq_rejects_while_migrating action iq w :
  is_migrating w = true ->
  action <> Some "get" -> action <> Some "getiso" ->
  process_iq self host code action iq w
  = (with_event
       (Send (Error (Exception ["virtual machine is migrating. Can't perform any drives operation"])
                    code)) w,
     Raise NodeProcessed).
Proof.
  intros Hm Hget Hiso. unfold process_iq, dispatch, bind, gets. rewrite Hm.
  rewrite !bool_decide_eq_false_2 by done. reflexivity.
Qed.

Lemma dispatch_routes a h iq w w' r :
  handler_of self host a = Some h ->
  is_migrating w = false \/ a = "get" \/ a = "getiso" ->
  h iq w = (w', Ok r) ->
  dispatch self host code (Some a) iq w = (w', Ok (Some r)).
Proof.
  intros Hh Hopen Hrun. unfold dispatch. rewrite gets_bind.
  assert (is_migrating w
          && negb (bool_decide (Some a = Some "get") || bool_decide (Some a = Some "getiso"))
          = false) as ->.
  { destruct Hopen as [->|[->| ->]]; [done|..]; by rewrite andb_false_r. }
  unfold handler_of in Hh.
  repeat match type of Hh with
  | (if String.eqb a ?s then _ else _) = _ =>
      destruct (String.eqb_spec a s) as [->|?];
      [injection Hh as <-;
       rewrite ?bool_decide_eq_true_2, ?bool_decide_eq_false_2 by (done || congruence);
       unfold bind; by rewrite Hrun
      |rewrite (bool_decide_eq_false_2 (Some a = Some s)) by congruence]
  end.
  done.
Qed.

(** X3: a known action that is let through (the machine is not migrating, or the
    action is get or getiso) runs its handler once; the handler's reply is
    sent after the handler's own effects and NodeProcessed is raised. *)
Theorem process_iq_routes a h iq w w' r :
  handler_of self host a = Some h ->
  is_migrating w = false \/ a = "get" \/ a = "getiso" ->
  h iq w = (w', Ok r) ->
  process_iq self host code (Some a) iq w = (with_event (Send r) w', Raise NodeProcessed).
Proof.
  intros Hh Hopen Hrun. unfold process_iq, bind.
  by rewrite (dispatch_routes a h iq w w' r Hh Hopen Hrun).
Qed.

End Dispatcher.

(** ** Rename *)

Lemma removed_is_gone (p : string) (fs : gset string) : p ∉ fs ∖ {[p]}.
Proof. intros [_ Hn]%elem_of_difference. apply Hn. by apply elem_of_singleton. Qed.

Lemma rename_ok src dst w w' u :
  rename src dst w = (w', Ok u) ->
  src ∈ files w /\
  w' = mkWorld (folder w) (xmppstatus w) (xmppstatusshow w) (is_migrating w)
               (definition w) ({[dst]} ∪ (files w ∖ {[src]})) (trace w).
Proof.
  unfold rename. unfold_monad. case_bool_decide; [|done]. by intros [= <-].
Qed.

(** X12: a rename that succeeds moved the file: the source path existed and is
    gone, the new path (the folder, the sanitised new name, a dot and the
    last dot-piece of the source path) was free and now exists, and every
    other path is as before.  The definition document and the presence are
    not touched: a disk entry on the old path keeps pointing at it. *)
Theorem iq_rename_moves_file iq w w' payload :
  iq_rename iq w = (w', Ok (Result payload)) ->
  exists path newname,
    request_attr iq "path" = Some path /\ request_attr iq "newname" = Some newname
    /\ let newpath := rename_newpath (folder w) (sanitize newname) path in
       (path ∈ files w) /\ (newpath ∉ files w)
       /\ files w' = {[newpath]} ∪ (files w ∖ {[path]})
       /\ (path ∉ files w') /\ (newpath ∈ files w')
       /\ definition w' = definition w
       /\ xmppstatus w' = xmppstatus w /\ xmppstatusshow w' = xmppstatusshow w
       /\ trace w'
          = (trace w ++
             [LogInfo ("renamed hard drive " +:+ path +:+ " into  " +:+ sanitize newname);
              Shout "disk" ("I've just renamed hard drive " +:+ path +:+ " into  "
                            +:+ sanitize newname +:+ ".");
              PushChange "disk" "renamed"])%list
       /\ payload = [].
Proof.
  intros Hrun. unfold iq_rename in Hrun. apply try_result in Hrun.
  peel_as Hrun H1 path. apply archipel_attr_ok in H1 as (-> & -> & _).
  peel_as Hrun H1 newname. apply archipel_attr_ok in H1 as (-> & -> & _).
  peel_as Hrun H1 newname'. apply deref_ok in H1 as (-> & Hnew).
  peel_as Hrun H1 path'. apply deref_ok in H1 as (-> & Hpath).
  peel Hrun H1. apply gets_ok in H1 as (-> & ->).
  peel Hrun H1. apply gets_ok in H1 as (-> & ->).
  peel Hrun H1. apply when_raise_ok in H1 as (-> & Hfree).
  peel Hrun H1. apply rename_ok in H1 as (Hin & ->).
  unfold_monad_in Hrun. injection Hrun as <- <-.
  exists path', newname'. rewrite Hpath, Hnew. do 2 (split; [done|]).
  cbn [files definition xmppstatus xmppstatusshow trace folder].
  apply bool_decide_eq_false_1 in Hfree.
  do 3 (split; [done|]).
  split.
  { intros [Heq%elem_of_singleton|[_ Hne]%elem_of_difference]%elem_of_union.
    - apply Hfree. by rewrite <- Heq.
    - apply Hne. by apply elem_of_singleton. }
  split; [apply elem_of_union; left; by apply elem_of_singleton|].
  do 3 (split; [done|]). split; [|done].
  by rewrite <- !app_assoc.
Qed.

(** X13: a rename whose source path does not exist, towards a free destination,
    is answered with error -3006 and changes nothing. *)
Theorem iq_rename_missing_source iq w path newname :
  request_attr iq "path" = Some path ->
  request_attr iq "newname" = Some newname ->
  rename_newpath (folder w) (sanitize newname) path ∉ files w ->
  path ∉ files w ->
  iq_rename iq w = (w, Ok (Error OSError (-3006))).
Proof.
  intros Hpath Hnew Hfree Hout.
  apply request_attr_tags in Hpath as (q & a & Hq & Ha & Hpath).
  unfold request_attr in Hnew. rewrite Hq, Ha in Hnew.
  unfold iq_rename, rename. rewrite Hq. unfold_monad. rewrite Ha. cbv beta iota.
  rewrite Hpath, Hnew. cbv beta iota.
  rewrite (bool_decide_eq_false_2 _ Hfree). cbv beta iota. cbn [files].
  by rewrite (bool_decide_eq_false_2 _ Hout).
Qed.

(** ** Create *)

Section Create.

Variable self : Plugin.
Variable host : Host.

(** X5: a create request with a name and a format, within the size limits,
    towards a free path, runs qemu-img create once, with the preallocation
    option exactly when metadata preallocation is asked for a qcow2 image and
    the configuration enables it.  Exit status 0 gives the result reply, the
    log line, the shout and the change signal; any other status gives error
    -3001 and no notification.  Either way the filesystem is what the tool
    left: nothing is rolled back. *)
Theorem iq_create_runs_tool iq w name format ret fs' :
  request_attr iq "name" = Some name ->
  request_attr iq "format" = Some format ->
  within_limits (request_attr iq "unit") (request_attr iq "size") = true ->
  (request_attr iq "preallocation" = Some "metadata" -> format = "qcow2" ->
   is_Some (use_metadata_preallocation self)) ->
  let disk_name := sanitize name in
  let disk_path := create_disk_path (folder w) disk_name format in
  let sizespec := pystr (request_attr iq "size") +:+ pystr (request_attr iq "unit") in
  let meta := preallocates self (request_attr iq "preallocation") format in
  let argv := create_argv self (request_attr iq "preallocation") format disk_path sizespec in
  let before := ((if meta then [LogInfo "creating a QCOW2 file with preallocated metadata"]
                  else []) ++ [Call argv])%list in
  disk_path ∉ files w ->
  subprocess_call host argv (files w) = Some (ret, fs') ->
  iq_create self host iq w
  = if ret =? 0
    then (mkWorld (folder w) (xmppstatus w) (xmppstatusshow w) (is_migrating w)
                  (definition w) fs'
                  (trace w ++ before ++
                   [LogInfo "disk created";
                    Shout "disk" ("I've just created a new hard drive named " +:+ disk_name
                                  +:+ " with size of " +:+ pystr (request_attr iq "size")
                                  +:+ pystr (request_attr iq "unit") +:+ ".");
                    PushChange "disk" "created"])%list,
          Ok (Result []))
    else (mkWorld (folder w) (xmppstatus w) (xmppstatusshow w) (is_migrating w)
                  (definition w) fs' (trace w ++ before)%list,
          Ok (Error (Exception ["DriveError";
                                "Unable to create drive. Error code is " +:+ pretty ret])
                    (-3001))).
Proof.
  intros Hname Hfmt Hlim Hcfg disk_name disk_path sizespec meta argv before Hfree Hcall.
  apply request_attr_tags in Hname as (q & a & Hq & Ha & Hname).
  assert (forall key, request_attr iq key = getAttr a key) as Hattr.
  { intros key. unfold request_attr. by rewrite Hq, Ha. }
  subst before argv meta sizespec disk_path disk_name. rewrite !Hattr in *.
  unfold iq_create. rewrite Hq. unfold_monad. rewrite Ha. cbv beta iota.
  rewrite Hname, Hfmt. cbv beta iota.
  assert ((if bool_decide (getAttr a "unit" = Some "M")
           then bind (int_of (getAttr a "size")) (fun n => pure (1000000000 <=? n))
           else pure false) w = (w, Ok false)
          /\ (if bool_decide (getAttr a "unit" = Some "G")
              then bind (int_of (getAttr a "size")) (fun n => pure (10000 <=? n))
              else pure false) w = (w, Ok false)) as [HM HG].
  { unfold within_limits in Hlim. unfold_monad.
    destruct (bool_decide (getAttr a "unit" = Some "M")) eqn:EM;
      destruct (bool_decide (getAttr a "unit" = Some "G")) eqn:EG;
      try (apply bool_decide_eq_true_1 in EM; apply bool_decide_eq_true_1 in EG; congruence);
      try done;
      (destruct (getAttr a "size") as [sz|]; [|done]);
      (destruct (PyStr.int sz) as [n|]; [|done]);
      apply Z.ltb_lt in Hlim; split; try done; f_equal; f_equal; by apply Z.leb_gt. }
  unfold_monad_in HM. unfold_monad_in HG. rewrite HM. cbv beta iota. rewrite HG. cbv beta iota.
  rewrite (bool_decide_eq_false_2 _ Hfree). cbv beta iota.
  unfold create_argv, preallocates in *.
  destruct (bool_decide (getAttr a "preallocation" = Some "metadata")) eqn:Epre;
    destruct (bool_decide (format = "qcow2")) eqn:Eq; cbn [andb] in *;
    try (destruct (use_metadata_preallocation self) as [[|]|] eqn:Ecfg;
         [| |apply bool_decide_eq_true_1 in Epre; apply bool_decide_eq_true_1 in Eq;
             destruct (Hcfg Epre Eq) as [? [=]]]);
    cbn [bool_decide decide bool_decide_eq_true_1] in *;
    rewrite ?bool_decide_eq_true_2, ?bool_decide_eq_false_2 in * by done;
    cbv beta iota; unfold call; unfold_monad; cbn [files]; rewrite Hcall; cbv beta iota;
    cbn [files folder xmppstatus xmppstatusshow is_migrating definition trace];
    destruct (ret =? 0); cbn [negb]; cbv beta iota;
    cbn [files folder xmppstatus xmppstatusshow is_migrating definition trace app];
    rewrite <- ?app_assoc; reflexivity.
Qed.

End Create.

(** ** Convert *)

Section Convert.

Variable self : Plugin.
Variable host : Host.

(** X9: when qemu-img convert ends with a status other than 0, the convert is
    answered with error -3005: the source is not unlinked (the filesystem is
    what the tool left), the definition document is untouched, nothing is
    notified, and the presence announced before the call is restored. *)
Theorem iq_convert_tool_failure iq w path format ret fs' :
  request_attr iq "path" = Some path ->
  request_attr iq "format" = Some format ->
  let disk_path := convert_disk_path path format in
  let argv := [qemu_img_bin self; "convert"; path; "-O"; format; disk_path] in
  disk_path ∉ files w ->
  subprocess_call host argv (files w) = Some (ret, fs') ->
  ret <> 0 ->
  iq_convert self host iq w
  = (mkWorld (folder w) (xmppstatus w) (xmppstatusshow w) (is_migrating w)
             (definition w) fs'
             (trace w ++ [Presence (Some "dnd") (Some "Converting a disk...");
                          Call argv;
                          Presence (xmppstatusshow w) (xmppstatus w)])%list,
     Ok (Error (Exception ["DriveError";
                           "Unable to convert drive. Error code is " +:+ pretty ret])
               (-3005))).
Proof.
  intros Hpath Hfmt disk_path argv Hfree Hcall Hret. subst argv disk_path.
  apply request_attr_tags in Hpath as (q & a & Hq & Ha & Hpath).
  unfold request_attr in Hfmt. rewrite Hq, Ha in Hfmt.
  unfold iq_convert, call. rewrite Hq. unfold_monad. rewrite Ha. cbv beta iota.
  rewrite Hpath, Hfmt. cbv beta iota.
  rewrite (bool_decide_eq_false_2 _ Hfree). cbv beta iota. cbn [files].
  rewrite Hcall. cbv beta iota.
  apply Z.eqb_neq in Hret. rewrite Hret. cbn [negb]. cbv beta iota.
  cbn [files folder xmppstatus xmppstatusshow is_migrating definition trace].
  by rewrite <- !app_assoc.
Qed.

(** X8: a convert that succeeds ran qemu-img convert once, with status 0,
    towards a path that was free, and then unlinked the source: the
    filesystem is what the tool left without the source path.  The presence
    is the one found, and the trace gains the busy presence, the call, the
    commit of the definition when a disk entry was retargeted, the restored
    presence, the log line, the shout and the change signal. *)
Theorem iq_convert_replaces_file iq w w' payload :
  iq_convert self host iq w = (w', Ok (Result payload)) ->
  exists path format fs',
    request_attr iq "path" = Some path /\ request_attr iq "format" = Some format
    /\ let disk_path := convert_disk_path path format in
       let argv := [qemu_img_bin self; "convert"; path; "-O"; format; disk_path] in
       (disk_path ∉ files w)
       /\ subprocess_call host argv (files w) = Some (0, fs')
       /\ (path ∈ fs')
       /\ files w' = fs' ∖ {[path]}
       /\ (path ∉ files w')
       /\ xmppstatus w' = xmppstatus w /\ xmppstatusshow w' = xmppstatusshow w
       /\ trace w'
          = (trace w
             ++ [Presence (Some "dnd") (Some "Converting a disk..."); Call argv]
             ++ match first_disk_on path (device_entries (definition w)), definition w' with
                | Some _, Some doc' => [Define doc']
                | _, _ => []
                end
             ++ [Presence (xmppstatusshow w) (xmppstatus w);
                 LogInfo ("disk as been converted from " +:+ path +:+ " to " +:+ disk_path);
                 Shout "disk" ("I've just converted hard drive " +:+ path
                               +:+ " into format " +:+ format +:+ ".");
                 PushChange "disk" "converted"])%list
       /\ payload = [].
Proof.
  intros Hrun. unfold iq_convert in Hrun. rewrite !gets_bind in Hrun.
  apply try_result_restoring in Hrun.
  peel_as Hrun H1 opath. apply archipel_attr_ok in H1 as (-> & -> & _).
  peel_as Hrun H1 oformat. apply archipel_attr_ok in H1 as (-> & -> & _).
  peel_as Hrun H1 path. apply deref_ok in H1 as (-> & Hpath).
  peel_as Hrun H1 format. apply must_ok in H1 as (-> & Hfmt).
  peel Hrun H1. apply gets_ok in H1 as (-> & ->).
  peel Hrun H1. apply when_raise_ok in H1 as (-> & Hfree).
  peel Hrun H1. apply change_presence_ok in H1 as ->.
  peel_as Hrun H1 ret. apply call_ok in H1 as (fs' & Hcall & ->).
  peel Hrun H1. apply when_raise_ok in H1 as (-> & Hret).
  peel Hrun H1. apply unlink_ok in H1 as (Hin & ->).
  cbn [files folder definition xmppstatus xmppstatusshow is_migrating trace] in *.
  peel_as Hrun H1 t. destruct t as [[doc dev] devices].
  apply devices_node_ok in H1 as (-> & Hd & Hdev & Hdevices). cbn [definition] in Hd.
  peel_at Hrun Hloop w2. cbn [snd] in Hloop.
  rewrite (convert_drives_run host doc devices dev _ _ _ Hdev Hdevices) in Hloop
    by (cbn [definition]; exact Hd).
  rewrite find_getTags_disk in Hloop.
  unfold_monad_in Hrun. injection Hrun as <- <-.
  apply negb_false_iff, Z.eqb_eq in Hret. subst ret.
  apply bool_decide_eq_false_1 in Hfree.
  exists path, format, fs'. do 2 (split; [done|]). cbv zeta.
  rewrite Hd, (device_entries_doc _ _ _ Hdev Hdevices).
  do 3 (split; [done|]).
  destruct (first_disk_on path (getChildren devices)) as [[i drive]|].
  - apply libvirt_defineXML_ok in Hloop as (d & Hdef & _ & ->).
    cbn [files folder definition xmppstatus xmppstatusshow is_migrating trace
         with_definition] in *. injection Hdef as <-.
    split; [done|]. split; [apply removed_is_gone|]. do 2 (split; [done|]). split; [|done].
    by rewrite <- !app_assoc.
  - injection Hloop as <-.
    cbn [files folder definition xmppstatus xmppstatusshow is_migrating trace].
    split; [done|]. split; [apply removed_is_gone|]. do 2 (split; [done|]). split; [|done].
    by rewrite <- !app_assoc.
Qed.

End Convert.

(** ** Delete *)

Section Delete.

Variable host : Host.







End Delete.

(** ** Inventory *)

Section Inventory.

Variable self : Plugin.
Variable host : Host.

Lemma reads_only_refl w : reads_only w w.
Proof.
  split; [by repeat split|]. exists []. split; [by rewrite app_nil_r|constructor].
Qed.

Lemma reads_only_trans w1 w2 w3 : reads_only w1 w2 -> reads_only w2 w3 -> reads_only w1 w3.
Proof.
  intros [(A1 & A2 & A3 & A4 & A5 & A6) (tr1 & T1 & F1)]
         [(B1 & B2 & B3 & B4 & B5 & B6) (tr2 & T2 & F2)].
  split; [repeat split; congruence|].
  exists (tr1 ++ tr2)%list. split; [by rewrite T2, T1, app_assoc|by apply Forall_app].
Qed.

Lemma reader_pure {A} (a : A) : Reader (pure a).
Proof. intros w w' r [= <- _]. apply reads_only_refl. Qed.

Lemma reader_raise {A} e : Reader (@raise A e).
Proof. intros w w' r [= <- _]. apply reads_only_refl. Qed.

Lemma reader_gets {A} (f : World -> A) : Reader (gets f).
Proof. intros w w' r [= <- _]. apply reads_only_refl. Qed.

Lemma reader_must {A} e (o : option A) : Reader (must e o).
Proof. destruct o; [apply reader_pure|apply reader_raise]. Qed.

Lemma reader_bind {A B} (m : M A) (f : A -> M B) :
  Reader m -> (forall a, Reader (f a)) -> Reader (bind m f).
Proof.
  intros Hm Hf w w' r. unfold bind.
  destruct (m w) as [w1 [a|e]] eqn:Hrun.
  - intros Hk. eapply reads_only_trans; [by eapply Hm|by eapply Hf].
  - intros [= <- _]. by eapply Hm.
Qed.

Lemma reader_try {A} (body : M A) (handler : exn -> M A) :
  Reader body -> (forall e, Reader (handler e)) -> Reader (try_except body handler).
Proof.
  intros Hb Hh w w' r. unfold try_except.
  destruct (body w) as [w1 [a|e]] eqn:Hrun.
  - intros [= <- _]. by eapply Hb.
  - intros Hk. eapply reads_only_trans; [by eapply Hb|by eapply Hh].
Qed.

Lemma reader_emit e : inventory_event e -> Reader (emit e).
Proof.
  intros He w w' r [= <- _]. split; [by repeat split|].
  exists [e]. split; [done|by constructor].
Qed.

Lemma reader_popen argv : Reader (popen host argv).
Proof.
  unfold popen. apply reader_bind; [by apply reader_emit|]. intros _.
  apply reader_bind; [apply reader_gets|]. intros fs. apply reader_must.
Qed.

Create HintDb reader.
#[local] Hint Resolve reader_pure reader_raise reader_gets reader_must reader_popen
  reader_bind reader_try : reader.

Lemma reader_get_isos probed tagged isos : forall nodes,
  Reader (get_isos host probed tagged isos nodes).
Proof.
  induction isos as [|iso rest IH]; intros nodes; cbn [get_isos]; [auto with reader|].
  apply reader_bind; [auto with reader|]. intros out. by destruct (0 <=? _).
Qed.

Lemma reader_get_disks dir disks : forall nodes,
  Reader (get_disks self host dir disks nodes).
Proof.
  induction disks as [|disk rest IH]; intros nodes; cbn [get_disks]; [auto with reader|].
  apply reader_bind; [auto with reader|]. intros out.
  destruct (looks_like_disk _); [|done].
  repeat (apply reader_bind; [auto with reader|]; intros ?). done.
Qed.

Lemma reader_iq_get iq : Reader (iq_get self host iq).
Proof.
  unfold iq_get. apply reader_try; [|intros e; apply reader_pure].
  apply reader_bind; [apply reader_gets|]. intros dir.
  apply reader_bind; [apply reader_popen|]. intros out.
  apply reader_bind; [apply reader_get_disks|]. intros nodes.
  apply reader_bind; [by apply reader_emit|]. intros _. apply reader_pure.
Qed.

Lemma reader_iq_getiso iq : Reader (iq_getiso self host iq).
Proof.
  unfold iq_getiso. apply reader_try; [|intros e; apply reader_pure].
  apply reader_bind; [apply reader_gets|]. intros dir.
  apply reader_bind; [apply reader_popen|]. intros out.
  apply reader_bind; [apply reader_get_isos|]. intros nodes.
  apply reader_bind; [apply reader_popen|]. intros out'.
  apply reader_bind; [apply reader_get_isos|]. intros nodes'.
  apply reader_bind; [by apply reader_emit|]. intros _. apply reader_pure.
Qed.

(** X21: the two inventories only read: however they end, with a list or with an
    error, the folder, the presence, the migration flag, the definition
    document and the filesystem are as before, and the trace has gained
    nothing but the subprocesses read from and the log line: no call, no
    commit, no notification. *)
Theorem inventory_reads_only iq w :
  reads_only w (iq_get self host iq w).1
  /\ reads_only w (iq_getiso self host iq w).1.
Proof.
  split.
  - destruct (iq_get self host iq w) as [w' r] eqn:Hrun. by eapply reader_iq_get.
  - destruct (iq_getiso self host iq w) as [w' r] eqn:Hrun. by eapply reader_iq_getiso.
Qed.

(** The loop of [iq_get], when it ends normally, appends one descriptor for
    each entry that is classified as a disk, in order. *)
Lemma get_disks_ok dir disks : forall nodes w w' res,
  get_disks self host dir disks nodes w = (w', Ok res) ->
  files w' = files w
  /\ exists added,
       res = (nodes ++ added)%list
       /\ Forall2 (describes self host (files w) dir)
                  (List.filter (fun d => accepted_disk host (files w) (dir +:+ "/" +:+ d)) disks)
                  added.
Proof.
  induction disks as [|disk rest IH]; intros nodes w w' res.
  - cbn [get_disks]. intros [= <- <-]. split; [done|].
    exists []. split; [by rewrite app_nil_r|constructor].
  - cbn [get_disks List.filter]. intros Hrun.
    peel_as Hrun H1 out. apply popen_ok in H1 as (Hout & ->).
    unfold accepted_disk at 1. rewrite Hout.
    destruct (looks_like_disk (PyStr.lower out)).
    + peel_as Hrun H1 sz. apply must_ok in H1 as (-> & Hsize).
      peel_as Hrun H1 info. apply popen_ok in H1 as (Hinfo & ->).
      peel_as Hrun H1 name. apply must_ok in H1 as (-> & Hname).
      peel_as Hrun H1 line1. apply must_ok in H1 as (-> & Hline1).
      peel_as Hrun H1 format. apply must_ok in H1 as (-> & Hformat).
      peel_as Hrun H1 line2. apply must_ok in H1 as (-> & Hline2).
      peel_as Hrun H1 vsize. apply must_ok in H1 as (-> & Hvsize).
      apply IH in Hrun as (Hfiles & added & -> & Hadded).
      cbn [files] in *. split; [done|].
      eexists (_ :: added). split; [by rewrite <- app_assoc|].
      constructor; [|done].
      assert (info_field info 1 = Some format) as Hf1.
      { unfold info_field. by rewrite Hline1. }
      assert (info_field info 2 = Some vsize) as Hf2.
      { unfold info_field. by rewrite Hline2. }
      unfold describes. do 2 (split; [reflexivity|]).
      split; [by rewrite Hname|]. split; [reflexivity|].
      split; [by exists sz|].
      exists info. rewrite Hf1, Hf2. by repeat split.
    + apply IH in Hrun as (Hfiles & added & -> & Hadded).
      cbn [files] in *. split; [done|]. by exists added.
Qed.

(** X19: an inventory of disks that succeeds lists, in the order of ls, exactly
    the entries of the private folder that file classifies as a disk image
    and not as an sqlite database.  Each descriptor carries the entry's name
    up to its first dot, the path of the entry in the folder, the size of
    the file, and as format and virtual size the text after ": " on the
    second and third lines of qemu-img info, which must both be there. *)
Theorem iq_get_payload iq w w' payload :
  iq_get self host iq w = (w', Ok (Result payload)) ->
  exists out,
    popen_stdout host ["ls"; folder w] (files w) = Some out
    /\ Forall2 (describes self host (files w) (folder w))
               (List.filter (fun d => accepted_disk host (files w) (folder w +:+ "/" +:+ d))
                            (PyStr.words out))
               payload.
Proof.
  intros Hrun. unfold iq_get in Hrun. apply try_result in Hrun.
  peel Hrun H1. apply gets_ok in H1 as (-> & ->).
  peel_as Hrun H1 out. apply popen_ok in H1 as (Hout & ->).
  peel Hrun H1. apply get_disks_ok in H1 as (_ & added & -> & Hadded).
  unfold_monad_in Hrun. injection Hrun as _ <-.
  exists out. by split.
Qed.

End Inventory.

(** ** Names and paths *)

Section Names.

Import PyStr.

(** A replacement leaves a string without occurrence of [old] as it is. *)
Lemma replace_scan_absent old new s :
  contains old s = false -> replace_scan old new s 0 = s.
Proof.
  induction s as [|c s IH]; [done|].
  change (contains old (String c s))
    with (startswith old (String c s) || contains old s)%bool.
  intros [Hhead Htail]%orb_false_elim.
  rewrite replace_scan_cons, Hhead. f_equal. by apply IH.
Qed.

(** X6: a name without space, path separator and pair of dots is the name of
    the file: sanitising changes nothing. *)
Theorem sanitize_keeps_clean_name name :
  contains " " name = false -> contains "/" name = false -> contains ".." name = false ->
  sanitize name = name.
Proof.
  intros Hspace Hsep Hdots. unfold sanitize, replace.
  by rewrite (replace_scan_absent " "), (replace_scan_absent "/"), (replace_scan_absent "..").
Qed.

(** X7: sanitising a sanitised name changes nothing: a disk can be renamed to
    the name create gave it. *)
Theorem sanitize_idempotent name : sanitize (sanitize name) = sanitize name.
Proof.
  unfold sanitize at 1, replace.
  rewrite (replace_scan_absent " ") by apply sanitize_no_space.
  rewrite (replace_scan_absent "/") by apply sanitize_no_separator.
  apply replace_scan_absent, sanitize_no_dotdot.
Qed.

(** The last piece of a split on one character is the end of the string,
    and what precedes it is empty or ends with the separator. *)
Lemma split_scan_last c s : forall t ts,
  split_scan (String c EmptyString) s 0 = (t, ts) ->
  exists pre,
    s = pre +:+ last_item (t :: ts)
    /\ ((ts = [] /\ pre = EmptyString)
        \/ (ts <> [] /\ exists p, pre = p +:+ String c EmptyString)).
Proof.
  induction s as [|d s IH]; intros t ts.
  - intros [= <- <-]. exists EmptyString. split; [done|by left].
  - rewrite split_scan_cons.
    change (startswith (String c EmptyString) (String d s))
      with (Ascii.eqb c d && startswith EmptyString s)%bool.
    rewrite startswith_nil, andb_true_r.
    cbn [String.length Nat.pred].
    destruct (split_scan (String c EmptyString) s 0) as [t' ts'] eqn:E.
    destruct (IH t' ts' eq_refl) as (pre & Hs & Hpre).
    destruct (Ascii.eqb_spec c d) as [<-|Hcd].
    + intros [= <- <-]. exists (String c pre). split.
      * rewrite append_cons. f_equal. exact Hs.
      * right. split; [done|].
        destruct Hpre as [[_ ->]|[_ [p ->]]]; [by exists EmptyString|by exists (String c p)].
    + intros [= <- <-].
      destruct Hpre as [[-> ->]|[Hne [p ->]]].
      * exists EmptyString. split; [|by left].
        rewrite append_nil in Hs. rewrite append_nil. unfold last_item in *. simpl in *.
        by rewrite Hs.
      * exists (String d (p +:+ String c EmptyString)). split.
        -- rewrite append_cons. f_equal. destruct ts' as [|u us]; [done|]. exact Hs.
        -- right. split; [done|]. by exists (String d p).
Qed.

(** X18: the path [iq_delete] unlinks is the folder, a separator and the end of
    the supplied name after its last separator: that end holds no separator,
    what precedes it in the name is empty or ends with a separator, and
    the path leaves the folder exactly when that end is a pair of dots. *)
Theorem secure_disk_path_is_last_segment dir name :
  exists pre leaf,
    name = pre +:+ leaf
    /\ (pre = EmptyString \/ exists p, pre = p +:+ "/")
    /\ contains "/" leaf = false
    /\ secure_disk_path dir name = dir +:+ "/" +:+ leaf
    /\ Path.escapes leaf = String.eqb leaf "..".
Proof.
  unfold secure_disk_path, split.
  destruct (split_scan "/" name 0) as [t ts] eqn:E.
  pose proof (last_segment_no_separator name) as Hsep.
  unfold split in Hsep. rewrite E in Hsep.
  destruct (split_scan_last _ _ _ _ E) as (pre & Hname & Hpre).
  exists pre, (last_item (t :: ts)). split; [done|].
  split; [destruct Hpre as [[_ ->]|[_ Hp]]; [by left|by right]|].
  split; [done|]. split; [done|].
  unfold Path.escapes. rewrite resolve_under_leaf by done.
  destruct (String.eqb_spec (last_item (t :: ts)) "..") as [->|Hne]; [done|].
  by repeat case_match.
Qed.

End Names.

(** ** [__init__] *)


(** ** The further properties on sample machines *)

Lemma process_iq_rejects_while_migrating_witness :
  process_iq Demo.plugin Demo.host (-43) (Some "delete") Demo.delete_a Scenario.migrating
  = (with_event
       (Send (Error (Exception ["virtual machine is migrating. Can't perform any drives operation"])
                    (-43))) Scenario.migrating,
     Raise NodeProcessed).
Proof.
  apply process_iq_rejects_while_migrating; [reflexivity|discriminate|discriminate].
Defined.

Lemma process_iq_routes_witness :
  process_iq Demo.plugin Demo.host (-43) (Some "getiso") Demo.getiso Scenario.migrating
  = (with_event
       (Send (Result [iso_descriptor "/vm" "notes.iso"; iso_descriptor "/iso/" "notes.iso"]))
       (iq_getiso Demo.plugin Demo.host Demo.getiso Scenario.migrating).1,
     Raise NodeProcessed).
Proof.
  apply (process_iq_routes Demo.plugin Demo.host (-43) "getiso"
           (iq_getiso Demo.plugin Demo.host)).
  - reflexivity.
  - right. right. reflexivity.
  - vm_compute. reflexivity.
Defined.

Lemma iq_create_runs_tool_witness :
  iq_create Demo.plugin Demo.host Scenario.create_new Demo.world
  = (mkWorld "/vm" (Some "Online") None false (Some Demo.domain)
             ({[ "/vm/new_disk.qcow2" ]} ∪ files Demo.world)
             [LogInfo "creating a QCOW2 file with preallocated metadata";
              Call ["qemu-img"; "create"; "-f"; "qcow2"; "-o"; "preallocation=metadata";
                    "/vm/new_disk.qcow2"; "10G"];
              LogInfo "disk created";
              Shout "disk" "I've just created a new hard drive named new_disk with size of 10G.";
              PushChange "disk" "created"],
     Ok (Result [])).
Proof.
  refine (iq_create_runs_tool Demo.plugin Demo.host Scenario.create_new Demo.world
            "new disk" "qcow2" 0 ({[ "/vm/new_disk.qcow2" ]} ∪ files Demo.world)
            _ _ _ _ _ _).
  - vm_compute. reflexivity.
  - vm_compute. reflexivity.
  - vm_compute. reflexivity.
  - intros _ _. by exists true.
  - in_files.
  - vm_compute. reflexivity.
Defined.

Lemma iq_convert_tool_failure_witness :
  iq_convert Demo.plugin Demo.host Scenario.convert_ghost Demo.world
  = (mkWorld "/vm" (Some "Online") None false (Some Demo.domain) (files Demo.world)
             [Presence (Some "dnd") (Some "Converting a disk...");
              Call ["qemu-img"; "convert"; "/vm/ghost.raw"; "-O"; "qcow2"; "/vm/ghost.qcow2"];
              Presence None (Some "Online")],
     Ok (Error (Exception ["DriveError"; "Unable to convert drive. Error code is 1"]) (-3005))).
Proof.
  refine (iq_convert_tool_failure Demo.plugin Demo.host Scenario.convert_ghost Demo.world
            "/vm/ghost.raw" "qcow2" 1 (files Demo.world) _ _ _ _ _).
  - vm_compute. reflexivity.
  - vm_compute. reflexivity.
  - in_files.
  - vm_compute. reflexivity.
  - discriminate.
Defined.

Lemma iq_convert_replaces_file_witness :
  exists path format fs',
    request_attr Demo.convert_img "path" = Some path
    /\ request_attr Demo.convert_img "format" = Some format
    /\ subprocess_call Demo.host
         ["qemu-img"; "convert"; path; "-O"; format; convert_disk_path path format]
         (files Demo.world) = Some (0, fs')
    /\ files (iq_convert Demo.plugin Demo.host Demo.convert_img Demo.world).1 = fs' ∖ {[path]}
    /\ (path ∉ files (iq_convert Demo.plugin Demo.host Demo.convert_img Demo.world).1).
Proof.
  destruct (iq_convert_replaces_file Demo.plugin Demo.host Demo.convert_img Demo.world
              (iq_convert Demo.plugin Demo.host Demo.convert_img Demo.world).1 [])
    as (path & format & fs' & Hp & Hf & _ & Hcall & _ & Hfiles & Hgone & _).
  { vm_compute. reflexivity. }
  by exists path, format, fs'.
Defined.

Lemma iq_rename_moves_file_witness :
  exists path newname,
    request_attr Scenario.rename_b "path" = Some path
    /\ request_attr Scenario.rename_b "newname" = Some newname
    /\ (path ∈ files Demo.world)
    /\ (rename_newpath "/vm" (sanitize newname) path ∉ files Demo.world)
    /\ (path ∉ files (iq_rename Scenario.rename_b Demo.world).1)
    /\ (rename_newpath "/vm" (sanitize newname) path
        ∈ files (iq_rename Scenario.rename_b Demo.world).1).
Proof.
  destruct (iq_rename_moves_file Scenario.rename_b Demo.world
              (iq_rename Scenario.rename_b Demo.world).1 [])
    as (path & newname & Hp & Hn & Hin & Hfree & _ & Hgone & Hnew & _).
  { vm_compute. reflexivity. }
  by exists path, newname.
Defined.

Lemma iq_rename_missing_source_witness :
  iq_rename Scenario.rename_ghost Demo.world = (Demo.world, Ok (Error OSError (-3006))).
Proof.
  apply (iq_rename_missing_source Scenario.rename_ghost Demo.world "/vm/ghost.img" "x").
  - vm_compute. reflexivity.
  - vm_compute. reflexivity.
  - in_files.
  - in_files.
Defined.


Lemma iq_delete_missing_file_witness :
  iq_delete Demo.host Demo.delete_ghost Demo.world
  = (mkWorld "/vm" (Some "Deleting a drive...") (Some "dnd") false (Some Demo.domain)
             (files Demo.world) [Presence (Some "dnd") (Some "Deleting a drive...")],
     Ok (Error OSError (-3002))).
Proof.
  apply (iq_delete_missing_file Demo.host Demo.delete_ghost Demo.world "ghost.qcow2").
  - vm_compute. reflexivity.
  - in_files.
Defined.

Lemma iq_delete_success_restores_presence_witness :
  xmppstatus (iq_delete Demo.host Demo.delete_a Demo.world).1 = Some "Online"
  /\ xmppstatusshow (iq_delete Demo.host Demo.delete_a Demo.world).1 = None.
Proof.
  apply (iq_delete_success_restores_presence Demo.host Demo.delete_a Demo.world _ []).
  vm_compute. reflexivity.
Defined.

Lemma iq_delete_keeps_definition_witness :
  definition (iq_delete Demo.host Scenario.delete_b Demo.world).1 = Some Demo.domain.
Proof.
  apply (iq_delete_keeps_definition Demo.host Scenario.delete_b Demo.world _ []).
  - vm_compute. discriminate.
  - vm_compute. reflexivity.
Defined.

Lemma iq_getiso_payload_witness :
  exists private shared,
    popen_stdout Demo.host ["ls"; "/vm"] (files Demo.world) = Some private
    /\ popen_stdout Demo.host ["ls"; "/iso/"] (files Demo.world) = Some shared
    /\ [iso_descriptor "/vm" "notes.iso"; iso_descriptor "/iso/" "notes.iso"]
       = (map (iso_descriptor "/vm")
              (List.filter (fun iso => classified_iso Demo.host (files Demo.world)
                                         ("/iso/" +:+ "/" +:+ iso)) (PyStr.words private))
          ++ map (iso_descriptor "/iso/")
                 (List.filter (fun iso => classified_iso Demo.host (files Demo.world)
                                            ("/iso/" +:+ "/" +:+ iso)) (PyStr.words shared)))%list.
Proof.
  apply (iq_getiso_payload Demo.plugin Demo.host Demo.getiso Demo.world
           (iq_getiso Demo.plugin Demo.host Demo.getiso Demo.world).1).
  vm_compute. reflexivity.
Defined.

Lemma iq_get_payload_witness :
  exists out,
    popen_stdout Scenario.disk_host ["ls"; "/vm"] (files Demo.world) = Some out
    /\ Forall2 (describes Demo.plugin Scenario.disk_host (files Demo.world) "/vm")
               (List.filter (fun d => accepted_disk Scenario.disk_host (files Demo.world)
                                        ("/vm" +:+ "/" +:+ d))
                            (PyStr.words out))
               [mkNode "disk"
                  (list_to_map [("name", "a"); ("path", "/vm/a.sys.qcow2"); ("format", "qcow2");
                                ("virtualSize", "10G (10737418240 bytes)");
                                ("diskSize", "139264")])
                  []].
Proof.
  apply (iq_get_payload Demo.plugin Scenario.disk_host Scenario.get Demo.world
           (iq_get Demo.plugin Scenario.disk_host Scenario.get Demo.world).1).
  vm_compute. reflexivity.
Defined.

Lemma sanitize_keeps_clean_name_witness : sanitize "disk-1.v2" = "disk-1.v2".
Proof. apply sanitize_keeps_clean_name; reflexivity. Defined.


(** ** Where the sanitised name does not confine the path *)

